(** * fastify-employee-app: the employee routes, their schema validation
      and the in-memory state

    A shallow embedding of

    - [src/routes/employee/state.js]   the module holding [employees] and [nextId];
    - [src/routes/employee/index.js]   the schemas and the five route handlers;
    - [src/schemas/employee.schema.js] [employeeSchema];
    - [src/server.js]                  the Ajv options and the error handler
                                       that turns a validation failure into
                                       a 400 reply;

    followed by the properties of the specification, each proved or refuted
    on these definitions.

    The POST and PUT routes give Fastify a body schema.  The validator Ajv
    compiles from it is written out in section [Ajv]: the order in which it
    visits the keywords, the coercions of [coerceTypes: 'array'] and the
    removal of additional properties are those of Ajv 8 under Fastify's
    default options, of which [server.js] changes [allErrors] only.

    Numbers.  The program's numbers are IEEE doubles.  Here a JSON number is
    an exact rational and an id, an age and the counter are integers.
    [parseInt] rounds to the nearest double as the program's does, and
    [multipleOf] refuses what Ajv's test refuses from 10^21 on.  Numbers
    that are not finite are outside the model: a string such as "Infinity"
    in a body, which Ajv coerces to a number that is not finite, has no
    counterpart here. *)

From Stdlib Require Import QArith Ascii.
From stdpp Require Import gmap strings list fin_maps pretty.

Local Set Warnings "-register-all".
Local Open Scope Z_scope.

(** ** JavaScript values *)

(** The two conversions between strings and numbers that the validator's
    coercions and the template strings rely on.  They are kept abstract:
    every statement below holds for any runtime that renders integers in
    decimal, as JavaScript does below 10^21. *)
Class JSRuntime := {
  (** [+s] for a string [s]: [Some x] when it is the finite number [x],
      [None] when it is NaN. *)
  StringToNumber : string → option Q;
  (** [String(x)], also [`${x}`] and [("" + x)]. *)
  NumberToString : Q → string;
  NumberToString_integer :
    ∀ z : Z, Z.abs z < 10 ^ 21 → NumberToString (inject_Z z) = pretty z
}.

(** A parsed JSON document, as [request.body] holds it. *)
Inductive json : Type :=
| JNull
| JBool (b : bool)
| JNum (x : Q)
| JStr (s : string)
| JArr (xs : list json)
| JObj (fields : gmap string json).

(** [Number.isInteger] on a finite number, and the integer it then is. *)
Definition isInteger (x : Q) : bool :=
  (Qnum x mod Zpos (Qden x) =? 0).

Definition toInteger (x : Q) : Z :=
  Qnum x / Zpos (Qden x).

(** [x < y] on numbers. *)
Definition Qlt_bool (x y : Q) : bool :=
  negb (Qle_bool y x).

(** [\d] *)
Definition isDigit (c : ascii) : bool :=
  let n := nat_of_ascii c in
  ((48 <=? n) && (n <=? 57))%nat.

(** [/^\d+$/.test(s)]: one digit or more, and nothing else. *)
Fixpoint testDigits (s : string) : bool :=
  match s with
  | EmptyString => false
  | String c EmptyString => isDigit c
  | String c rest => isDigit c && testDigits rest
  end.

Definition digitValue (c : ascii) : Z :=
  Z.of_nat (nat_of_ascii c) - 48.

Fixpoint parseDigits (acc : Z) (s : string) : Z :=
  match s with
  | EmptyString => acc
  | String c rest =>
      if isDigit c then parseDigits (10 * acc + digitValue c) rest else acc
  end.

(** The double nearest to a natural number, ties to the even significand:
    exact below 2^53, 53 significant bits above. *)
Definition roundToDouble (n : Z) : Z :=
  if n <? 2 ^ 53 then n
  else
    let e := Z.log2 n - 52 in
    let q := n / 2 ^ e in
    let r := n mod 2 ^ e in
    let half := 2 ^ (e - 1) in
    let q' := if (half <? r) || ((r =? half) && Z.odd q) then q + 1 else q in
    q' * 2 ^ e.

(** [parseInt(s)] where the handlers call it, on a string that passed
    [testDigits]: the value of the leading run of decimal digits, as a
    double.  (A path parameter has at most 100 characters, so the value is
    finite.) *)
Definition parseInt (s : string) : Z :=
  roundToDouble (parseDigits 0 s).

(** [s.replace('/', '')]: the first slash is dropped. *)
Fixpoint replaceSlash (s : string) : string :=
  match s with
  | EmptyString => EmptyString
  | String c rest =>
      if Ascii.eqb c "/"%char then rest else String c (replaceSlash rest)
  end.

(** [a || b] on a possibly undefined string: the empty string is falsy. *)
Definition orElse (a : option string) (b : string) : string :=
  match a with
  | Some s => if String.eqb s "" then b else s
  | None => b
  end.

(** ** Ajv: schemas, options, error objects *)

Inductive JSONType : Type :=
| TString
| TNumber
| TInteger.

Definition typeName (t : JSONType) : string :=
  match t with
  | TString => "string"
  | TNumber => "number"
  | TInteger => "integer"
  end.

(** The schema of one property: its [type] and the keywords used in this
    repository. *)
Record PropertySchema := {
  type : JSONType;
  minimum : option Q;
  maximum : option Q;
  multipleOf : option Q;
  minLength : option nat
}.

(** A schema with [type: 'object'].  [properties] keeps the order in which
    the source lists them. *)
Record ObjectSchema := {
  required : list string;
  properties : list (string * PropertySchema);
  additionalProperties : bool
}.

Inductive CoerceTypes : Type :=
| CoerceOff
| CoerceOn
| CoerceArray.

Record AjvOptions := {
  coerceTypes : CoerceTypes;
  allErrors : bool
}.

(** What Fastify gives Ajv unless told otherwise ([coerceTypes: 'array'],
    [allErrors: false]; also [removeAdditional: true], which
    [validateObject] builds in). *)
Definition defaultAjvOptions : AjvOptions :=
  {| coerceTypes := CoerceArray; allErrors := false |}.

(** [server.js]: [ajv: { customOptions: { allErrors: true } }], merged over
    the defaults. *)
Definition ajvOptions : AjvOptions :=
  {| coerceTypes := coerceTypes defaultAjvOptions; allErrors := true |}.

(** An element of [error.validation]. *)
Record ErrorObject := {
  instancePath : string;
  keyword : string;
  missingProperty : option string;
  limit : option Q;
  typeParam : option string
}.

Definition requiredError (p : string) : ErrorObject :=
  {| instancePath := ""; keyword := "required";
     missingProperty := Some p; limit := None; typeParam := None |}.

Definition typeError (path : string) (t : string) : ErrorObject :=
  {| instancePath := path; keyword := "type";
     missingProperty := None; limit := None; typeParam := Some t |}.

Definition limitError (path kw : string) (l : Q) : ErrorObject :=
  {| instancePath := path; keyword := kw;
     missingProperty := None; limit := Some l; typeParam := None |}.

Definition multipleOfError (path : string) : ErrorObject :=
  {| instancePath := path; keyword := "multipleOf";
     missingProperty := None; limit := None; typeParam := None |}.

(** ** The validator Ajv compiles from a schema

    The checks run in the order of Ajv's generated code: the type of the
    value first (with coercion when the options ask for it), then the
    keywords of the number group ([maximum], [minimum], [multipleOf]) and of
    the string group ([minLength]); on an object [required] first, then
    [additionalProperties], then [properties], one property after the other
    in the order the schema lists them. *)

Section Ajv.
Context {rt : JSRuntime}.

(** The data already has the schema's type (no coercion needed). *)
Definition hasType (t : JSONType) (v : json) : bool :=
  match t, v with
  | TString, JStr _ => true
  | TNumber, JNum _ => true
  | TInteger, JNum x => isInteger x
  | _, _ => false
  end.

(** Coercion of a scalar to the schema's type; [None] when there is none.
    (A string whose number is not finite is outside the model, see the
    head of the file.) *)
Definition coerceTo (t : JSONType) (v : json) : option json :=
  match t, v with
  | TString, JNum x => Some (JStr (NumberToString x))
  | TString, JBool b => Some (JStr (if b then "true" else "false"))
  | TString, JNull => Some (JStr "")
  | (TNumber | TInteger), JBool b => Some (JNum (if b then 1%Q else 0%Q))
  | (TNumber | TInteger), JNull => Some (JNum 0%Q)
  | TNumber, JStr s =>
      if String.eqb s "" then None else JNum <$> StringToNumber s
  | TInteger, JStr s =>
      if String.eqb s "" then None
      else match StringToNumber s with
           | Some x => if isInteger x then Some (JNum x) else None
           | None => None
           end
  | _, _ => None
  end.

(** With [coerceTypes: 'array'] an array of one element stands for that
    element. *)
Definition unwrapArray (mode : CoerceTypes) (v : json) : json :=
  match mode, v with
  | CoerceArray, JArr [x] => x
  | _, _ => v
  end.

(** The value to validate when [v] has not the schema's type:
    [Some] coerced value, or [None] for a type error. *)
Definition coerceData (mode : CoerceTypes) (t : JSONType) (v : json)
  : option json :=
  match mode with
  | CoerceOff => None
  | _ =>
      let v1 := unwrapArray mode v in
      if hasType t v1 then Some v1 else coerceTo t v1
  end.

(** [res === parseInt(res)], the test of [multipleOf] on the quotient:
    [parseInt] reads the decimal rendering of [res], which is an integer
    numeral only for an integer below 10^21 (from there on the rendering is
    in exponent notation, and [parseInt] stops at its first digits). *)
Definition wholeNumber (res : Q) : bool :=
  isInteger res && (Z.abs (toInteger res) <? 10 ^ 21).

Definition numberKeywords (path : string) (ps : PropertySchema) (x : Q)
  : list ErrorObject :=
  (match maximum ps with
   | Some m => if Qlt_bool m x then [limitError path "maximum" m] else []
   | None => []
   end) ++
  (match minimum ps with
   | Some m => if Qlt_bool x m then [limitError path "minimum" m] else []
   | None => []
   end) ++
  (match multipleOf ps with
   | Some m => if wholeNumber (x / m) then [] else [multipleOfError path]
   | None => []
   end).

(** [minLength] counts characters; a string has none exactly when it is
    empty, which is all a limit of 1 asks. *)
Definition stringKeywords (path : string) (ps : PropertySchema) (s : string)
  : list ErrorObject :=
  match minLength ps with
  | Some n =>
      if (String.length s <? n)%nat
      then [limitError path "minLength" (inject_Z (Z.of_nat n))]
      else []
  | None => []
  end.

(** Each keyword group applies to data of its own type only. *)
Definition keywordErrors (path : string) (ps : PropertySchema) (v : json)
  : list ErrorObject :=
  match v with
  | JNum x => numberKeywords path ps x
  | JStr s => stringKeywords path ps s
  | _ => []
  end.

(** One property: its errors, and the value the property holds afterwards
    (coercion writes the coerced value back into the parent object). *)
Definition validateValue (opts : AjvOptions) (path : string)
    (ps : PropertySchema) (v : json) : list ErrorObject * json :=
  if hasType (type ps) v then (keywordErrors path ps v, v)
  else
    match coerceData (coerceTypes opts) (type ps) v with
    | Some c => (keywordErrors path ps c, c)
    | None =>
        (typeError path (typeName (type ps))
           :: keywordErrors path ps (unwrapArray (coerceTypes opts) v), v)
    end.

Fixpoint validateProperties (opts : AjvOptions)
    (props : list (string * PropertySchema))
    (fields data : gmap string json) : list ErrorObject * gmap string json :=
  match props with
  | [] => ([], data)
  | (p, ps) :: rest =>
      match fields !! p with
      | None => validateProperties opts rest fields data
      | Some v =>
          let '(errs, v') := validateValue opts ("/" +:+ p) ps v in
          let '(errs', data') :=
            validateProperties opts rest fields (<[p := v']> data) in
          (errs ++ errs', data')
      end
  end.

Definition requiredErrors (names : list string) (fields : gmap string json)
  : list ErrorObject :=
  flat_map (λ p, match fields !! p with
                 | None => [requiredError p]
                 | Some _ => []
                 end) names.

(** The compiled validator: [error.validation], and the body as validation
    leaves it.  Where the schema says [additionalProperties: false],
    [removeAdditional] deletes every property the schema does not name, so
    only the schema's properties are left; without [allErrors] the first
    error ends the validation. *)
Definition validateObject (opts : AjvOptions) (S : ObjectSchema) (body : json)
  : list ErrorObject * json :=
  match body with
  | JObj fields =>
      let kept := if additionalProperties S then fields else ∅ in
      let '(errs, data) := validateProperties opts (properties S) fields kept in
      let all := requiredErrors (required S) fields ++ errs in
      (if allErrors opts then all else take 1 all, JObj data)
  | _ => ([typeError "" "object"], body)
  end.

End Ajv.

(** ** The schemas of [routes/employee/index.js] *)

Definition updateEmployeeSchema : ObjectSchema :=
  {| required := ["name"; "age"];
     properties :=
       [ ("name", {| type := TString; minimum := None; maximum := None;
                     multipleOf := None; minLength := Some 1%nat |});
         ("age", {| type := TInteger; minimum := Some (5#1)%Q;
                    maximum := Some (95#1)%Q;
                    multipleOf := None; minLength := None |}) ];
     additionalProperties := true |}.

(** "Custom schema for POST that makes id optional"; both the POST and the
    PUT route validate the body against it. *)
Definition createEmployeeSchema : ObjectSchema :=
  {| required := ["name"; "age"];
     properties :=
       [ ("id", {| type := TNumber; minimum := Some (1#1)%Q; maximum := None;
                   multipleOf := Some (1#1)%Q; minLength := None |});
         ("name", {| type := TString; minimum := None; maximum := None;
                     multipleOf := None; minLength := Some 1%nat |});
         ("age", {| type := TInteger; minimum := Some (5#1)%Q;
                    maximum := Some (95#1)%Q;
                    multipleOf := None; minLength := None |}) ];
     additionalProperties := false |}.

(** [schemas/employee.schema.js] holds the same schema. *)
Definition employeeSchema : ObjectSchema := createEmployeeSchema.

(** ** [routes/employee/state.js] *)

(** A stored record, [{ id, name, age }].  Records enter the store through
    the POST handler only, behind the schema check, so [id] and [age] are
    integers and [name] is a string. *)
Record Employee := {
  id : Z;
  name : string;
  age : Z
}.

(** The two variables of the module. *)
Record State := {
  employees : list Employee;
  nextId : Z
}.

Definition initialState : State :=
  {| employees := []; nextId := 1 |}.

Definition getEmployees (st : State) : list Employee :=
  employees st.

Definition setEmployees (arr : list Employee) (st : State) : State :=
  {| employees := arr; nextId := nextId st |}.

Definition getNextId (st : State) : Z :=
  nextId st.

Definition setNextId (val : Z) (st : State) : State :=
  {| employees := employees st; nextId := val |}.

Definition reset (st : State) : State :=
  {| employees := []; nextId := 1 |}.

(** ** Replies *)

(** The JSON payload of a reply: [{ success: true, message, data }],
    [{ success: true, message, data, count }] for the list, and
    [{ success: false, message }]. *)
Inductive Payload : Type :=
| Success (message : string) (data : Employee)
| SuccessList (message : string) (data : list Employee) (count : nat)
| Failure (message : string).

Record Reply := {
  code : Z;
  payload : Payload
}.

Definition send (c : Z) (p : Payload) : Reply :=
  {| code := c; payload := p |}.

(** ** [server.js]: the error handler *)

Inductive Error : Type :=
| ValidationError (validation : list ErrorObject)
| OtherError.

Section Server.
Context {rt : JSRuntime}.

(** [`${firstError.params.limit}`] *)
Definition limitText (e : ErrorObject) : string :=
  match limit e with
  | Some l => NumberToString l
  | None => "undefined"
  end.

Definition typeText (e : ErrorObject) : string :=
  default "undefined" (typeParam e).

Definition missingPropertyText (e : ErrorObject) : string :=
  default "undefined" (missingProperty e).

(** The message built from [error.validation]. *)
Definition errorMessage (validationErrors : list ErrorObject) : string :=
  match validationErrors with
  | [] => "Validation failed"
  | firstError :: _ =>
      let field :=
        orElse (Some (replaceSlash (instancePath firstError)))
               (orElse (missingProperty firstError) "data") in
      let kw := keyword firstError in
      if String.eqb field "age"
         && (String.eqb kw "minimum" || String.eqb kw "maximum"
             || String.eqb kw "type" || String.eqb kw "multipleOf")
      then "Age must be between 5 and 95 years"
      else if String.eqb kw "minimum" then
        if String.eqb field "id"
        then "ID must be at least " +:+ limitText firstError
        else field +:+ " must be at least " +:+ limitText firstError
      else if String.eqb kw "maximum" then
        field +:+ " must be at most " +:+ limitText firstError
      else if String.eqb kw "type" then
        field +:+ " must be a " +:+ typeText firstError
      else if String.eqb kw "required" then
        missingPropertyText firstError +:+ " is required"
      else if String.eqb kw "minLength" then
        field +:+ " cannot be empty"
      else if String.eqb kw "multipleOf" then
        field +:+ " must be a whole number"
      else "Invalid " +:+ field
  end.

Definition errorHandler (error : Error) : Reply :=
  match error with
  | ValidationError validationErrors =>
      send 400 (Failure (errorMessage validationErrors))
  | OtherError => send 500 (Failure "Internal server error")
  end.

(** ** [routes/employee/index.js]: the handlers *)

(** [const { id, name, age } = request.body] on a body that passed
    [createEmployeeSchema]: [id] is [undefined] or an integral number,
    [name] a string, [age] an integral number. *)
Record Body := {
  body_id : option Z;
  body_name : string;
  body_age : Z
}.

Definition integerField (v : json) : option Z :=
  match v with
  | JNum x => if isInteger x then Some (toInteger x) else None
  | _ => None
  end.

Definition stringField (v : json) : option string :=
  match v with
  | JStr s => Some s
  | _ => None
  end.

Definition destructure (body : json) : option Body :=
  match body with
  | JObj fields =>
      n ← fields !! "name" ≫= stringField;
      a ← fields !! "age" ≫= integerField;
      match fields !! "id" with
      | None => Some {| body_id := None; body_name := n; body_age := a |}
      | Some v =>
          i ← integerField v;
          Some {| body_id := Some i; body_name := n; body_age := a |}
      end
  | _ => None
  end.

(** [employees.find(emp => emp.id === employeeId)] and
    [employees.findIndex(...)]: the first record with that id, and its
    index. *)
Definition findEmployee (employeeId : Z) (arr : list Employee)
  : option (nat * Employee) :=
  list_find (λ emp, id emp = employeeId) arr.

Definition invalidIdFormat : Reply :=
  send 400 (Failure "Invalid ID format. ID must be a number.").

Definition notFound : Reply :=
  send 404 (Failure "Employee not found").

(** GET /employees *)
Definition GET_employees (st : State) : Reply * State :=
  let arr := getEmployees st in
  (send 200 (SuccessList "Employees retrieved successfully" arr (length arr)),
   st).

(** GET /employees/:id *)
Definition GET_employee (idParam : string) (st : State) : Reply * State :=
  if negb (testDigits idParam) then (invalidIdFormat, st)
  else
    let employeeId := parseInt idParam in
    match findEmployee employeeId (getEmployees st) with
    | None => (notFound, st)
    | Some (_, employee) =>
        (send 200 (Success "Employee retrieved successfully" employee), st)
    end.

(** The handler of POST /employees, run on a validated body. *)
Definition POST_handler (b : Body) (st : State) : Reply * State :=
  let push employeeId st1 :=
    let newEmployee :=
      {| id := employeeId; name := body_name b; age := body_age b |} in
    (send 201 (Success "Employee created successfully" newEmployee),
     setEmployees (getEmployees st1 ++ [newEmployee]) st1) in
  match body_id b with
  | Some employeeId =>
      match findEmployee employeeId (getEmployees st) with
      | Some _ =>
          (send 409
             (Failure ("Employee with ID "
                       +:+ NumberToString (inject_Z employeeId)
                       +:+ " already exists")), st)
      | None => push employeeId st
      end
  | None =>
      let employeeId := getNextId st in
      push employeeId (setNextId (employeeId + 1) st)
  end.

(** The handler of PUT /employees/:id, run on a validated body. *)
Definition PUT_handler (idParam : string) (b : Body) (st : State)
  : Reply * State :=
  if negb (testDigits idParam) then (invalidIdFormat, st)
  else
    let employeeId := parseInt idParam in
    let arr := getEmployees st in
    match findEmployee employeeId arr with
    | None => (notFound, st)
    | Some (employeeIndex, old) =>
        let updated :=
          {| id := id old; name := body_name b; age := body_age b |} in
        (send 200 (Success "Employee updated successfully" updated),
         setEmployees (<[employeeIndex := updated]> arr) st)
    end.

(** DELETE /employees/:id *)
Definition DELETE_employee (idParam : string) (st : State) : Reply * State :=
  if negb (testDigits idParam) then (invalidIdFormat, st)
  else
    let employeeId := parseInt idParam in
    let arr := getEmployees st in
    match findEmployee employeeId arr with
    | None => (notFound, st)
    | Some (employeeIndex, deletedEmployee) =>
        (send 200 (Success "Employee deleted successfully" deletedEmployee),
         setEmployees (delete employeeIndex arr) st)
    end.

(** A route with [schema: { body: S }]: Fastify validates the body before
    it calls the handler; a failure goes to the error handler and the
    handler does not run.  A body that passed the schema always
    destructures (lemma [validated_destructures]); were it not so the
    handler would throw, which the error handler answers with 500. *)
Definition withBodySchema (S : ObjectSchema)
    (handler : Body → State → Reply * State) (body : json) (st : State)
  : Reply * State :=
  match validateObject ajvOptions S body with
  | ([], data) =>
      match destructure data with
      | Some b => handler b st
      | None => (errorHandler OtherError, st)
      end
  | (errs, _) => (errorHandler (ValidationError errs), st)
  end.

(** POST /employees *)
Definition POST_employees (body : json) (st : State) : Reply * State :=
  withBodySchema createEmployeeSchema POST_handler body st.

(** PUT /employees/:id *)
Definition PUT_employee (idParam : string) (body : json) (st : State)
  : Reply * State :=
  withBodySchema createEmployeeSchema (PUT_handler idParam) body st.

(** The body the handler receives, when validation lets the request
    through. *)
Definition accepted (body : json) : option Body :=
  match validateObject ajvOptions createEmployeeSchema body with
  | ([], data) => destructure data
  | _ => None
  end.

(** The message of the 400 reply, when validation stops the request. *)
Definition rejected (body : json) : option string :=
  match validateObject ajvOptions createEmployeeSchema body with
  | ([], _) => None
  | (errs, _) => Some (errorMessage errs)
  end.

(** ** Sequences of requests *)

Inductive Request : Type :=
| Create (body : json)
| Update (idParam : string) (body : json)
| Delete (idParam : string)
| GetAll
| GetById (idParam : string).

Definition serve (r : Request) (st : State) : Reply * State :=
  match r with
  | Create body => POST_employees body st
  | Update idParam body => PUT_employee idParam body st
  | Delete idParam => DELETE_employee idParam st
  | GetAll => GET_employees st
  | GetById idParam => GET_employee idParam st
  end.

(** The state after a sequence of requests. *)
Definition run (rs : list Request) (st : State) : State :=
  foldl (λ s r, (serve r s).2) st rs.

(** The ids in the store, in order. *)
Definition ids (st : State) : list Z :=
  id <$> employees st.

End Server.

(** ** The order of the validation messages, in words

    Two readings of "which message is returned when several fields are
    wrong", to be compared with [rejected]: each looks at one field at a
    time and differs from the other only in where the supplied [id] comes. *)

Section Precedence.
Context {rt : JSRuntime}.

(** The value a property holds once coerced to the type its schema asks
    for, if it can be. *)
Definition coerced (t : JSONType) (v : json) : option json :=
  if hasType t v then Some v else coerceData (coerceTypes ajvOptions) t v.

Definition ageMessage : string := "Age must be between 5 and 95 years".

(** A supplied [id]: a number, at least 1, whole (and below 10^21, where
    the test for whole numbers gives up). *)
Definition idComplaint (v : json) : option string :=
  match coerced TNumber v with
  | Some (JNum x) =>
      if Qlt_bool x (1#1) then Some "ID must be at least 1"
      else if wholeNumber x then None
      else Some "id must be a whole number"
  | _ => Some "id must be a number"
  end.

(** [name]: a string, not empty. *)
Definition nameComplaint (v : json) : option string :=
  match coerced TString v with
  | Some (JStr s) =>
      if String.eqb s "" then Some "name cannot be empty" else None
  | _ => Some "name must be a string"
  end.

(** [age]: an integer between 5 and 95. *)
Definition ageComplaint (v : json) : option string :=
  match coerced TInteger v with
  | Some (JNum x) =>
      if Qlt_bool x (5#1) || Qlt_bool (95#1) x then Some ageMessage else None
  | _ => Some ageMessage
  end.

(** The first complaint of a list of checks. *)
Fixpoint firstOf (checks : list (option string)) : option string :=
  match checks with
  | [] => None
  | Some m :: _ => Some m
  | None :: rest => firstOf rest
  end.

(** The order the specification states: missing name, missing age, empty
    name, age, and the supplied id last. *)
Definition statedPrecedence (fields : gmap string json) : option string :=
  match fields !! "name", fields !! "age" with
  | None, _ => Some "name is required"
  | Some _, None => Some "age is required"
  | Some n, Some a =>
      firstOf [nameComplaint n; ageComplaint a; fields !! "id" ≫= idComplaint]
  end.

(** The order of the schema's properties: missing name, missing age, then
    the supplied id, the name, the age. *)
Definition schemaPrecedence (fields : gmap string json) : option string :=
  match fields !! "name", fields !! "age" with
  | None, _ => Some "name is required"
  | Some _, None => Some "age is required"
  | Some n, Some a =>
      firstOf [fields !! "id" ≫= idComplaint; nameComplaint n; ageComplaint a]
  end.

End Precedence.

(** ** The validator, read property by property *)

Section Reading.
Context {rt : JSRuntime}.

(** The message of a list of errors, if there is any error. *)
Definition messageOf (errs : list ErrorObject) : option string :=
  match errs with
  | [] => None
  | _ => Some (errorMessage errs)
  end.

(** The errors [validateProperties] collects, without the data. *)
Definition propertyErrors (opts : AjvOptions)
    (props : list (string * PropertySchema)) (fields : gmap string json)
  : list ErrorObject :=
  flat_map (λ '(p, ps), match fields !! p with
                        | None => []
                        | Some v => (validateValue opts ("/" +:+ p) ps v).1
                        end) props.

(** The body the handler reads when no property draws a complaint: every
    property coerced to its type. *)
Definition coercedBody (fields : gmap string json) : option Body :=
  match fields !! "name" ≫= coerced TString,
        fields !! "age" ≫= coerced TInteger with
  | Some (JStr n), Some (JNum x) =>
      match fields !! "id" with
      | None =>
          Some {| body_id := None; body_name := n; body_age := toInteger x |}
      | Some v =>
          match coerced TNumber v with
          | Some (JNum y) =>
              Some {| body_id := Some (toInteger y); body_name := n;
                      body_age := toInteger x |}
          | _ => None
          end
      end
  | _, _ => None
  end.

End Reading.

(** A path parameter that consists of digit characters only. *)
Definition allDigits (s : string) : bool :=
  forallb isDigit (String.list_ascii_of_string s).

(** ** A runtime to evaluate examples with

    The two conversions on plain decimal integers, where they are what
    JavaScript computes: a string of digits is the number it spells, an
    integer is rendered in decimal.  Other strings are taken as NaN and
    other numbers are rendered by their integer part; no example below
    leaves the decimal integers. *)

Definition decimalStringToNumber (s : string) : option Q :=
  if testDigits s then Some (inject_Z (parseInt s)) else None.

Definition decimalNumberToString (x : Q) : string :=
  pretty (toInteger x).

Definition decimalRuntime : JSRuntime :=
  {| StringToNumber := decimalStringToNumber;
     NumberToString := decimalNumberToString;
     NumberToString_integer := λ z _, f_equal pretty (Z.div_1_r z) |}.

(** Request bodies used in the examples. *)
Definition body_of (fields : list (string * json)) : json :=
  JObj (list_to_map fields).

Definition num (z : Z) : json := JNum (inject_Z z).

(** [{ name: "A", age: 30 }] and [{ id: 1, name: "A", age: 30 }] *)
Definition fieldsA : gmap string json :=
  list_to_map [("name", JStr "A"); ("age", num 30)].

Definition fieldsA1 : gmap string json :=
  list_to_map [("id", num 1); ("name", JStr "A"); ("age", num 30)].

(** [{ id: 0, name: "A", age: 4 }]: the id and the age are both wrong. *)
Definition fieldsBadIdBadAge : gmap string json :=
  list_to_map [("id", num 0); ("name", JStr "A"); ("age", num 4)].

(** A store with two records, as two creates without id leave it. *)
Definition twoRecords : State :=
  {| employees := [ {| id := 1; name := "A"; age := 30 |};
                    {| id := 2; name := "B"; age := 31 |} ];
     nextId := 3 |}.

(** Three creates without id with a delete in between. *)
Definition countedCreates : list Request :=
  [ Create (JObj fieldsA); Create (JObj fieldsA); Delete "1";
    Create (JObj fieldsA) ].

(** Creates that all supply the id 1, with an update and a delete. *)
Definition suppliedCreates : list Request :=
  [ Create (JObj fieldsA1); Create (JObj fieldsA1); Update "1" (JObj fieldsA);
    Delete "1"; Create (JObj fieldsA1) ].

(** ** What the store is meant to hold *)

(** A record of the data model: an id of at least 1, a name that is not
    empty, an age from 5 to 95. *)
Definition validEmployee (e : Employee) : Prop :=
  1 ≤ id e ∧ name e ≠ "" ∧ 5 ≤ age e ≤ 95.

Definition validState (st : State) : Prop :=
  Forall validEmployee (employees st) ∧ 1 ≤ nextId st.

(** A request whose body, if it has one, holds neither a string nor an
    array as id or age.  Only a string (on its own or as the one element of
    an array) can be coerced to a number that is not finite. *)
Definition plainField (v : option json) : bool :=
  match v with
  | Some (JStr _) | Some (JArr _) => false
  | _ => true
  end.

Definition plainNumbers (r : Request) : bool :=
  match r with
  | Create (JObj fields) | Update _ (JObj fields) =>
      plainField (fields !! "id") && plainField (fields !! "age")
  | _ => true
  end.

(** A create whose body has an [id] property. *)
Definition suppliesId (r : Request) : bool :=
  match r with
  | Create (JObj fields) =>
      match fields !! "id" with
      | Some _ => true
      | None => false
      end
  | _ => false
  end.

(** A create whose body is an object without [id]: if it is accepted it
    takes its id from the counter. *)
Definition takesCounter (r : Request) : bool :=
  match r with
  | Create (JObj fields) =>
      match fields !! "id" with
      | Some _ => false
      | None => true
      end
  | _ => false
  end.

(** The ids in the store are distinct and all below the counter. *)
Definition freshCounter (st : State) : Prop :=
  NoDup (ids st) ∧ Forall (λ i, i < nextId st) (ids st).

(** [success: true] *)
Definition succeeded (p : Payload) : bool :=
  match p with
  | Failure _ => false
  | _ => true
  end.

(** * Properties *)

(** ** Numbers *)

Lemma isInteger_inject_Z (z : Z) : isInteger (inject_Z z) = true.
Proof. unfold isInteger. simpl. by rewrite Z.mod_1_r. Qed.

Lemma toInteger_inject_Z (z : Z) : toInteger (inject_Z z) = z.
Proof. unfold toInteger. simpl. apply Z.div_1_r. Qed.

Lemma Qlt_bool_inject_Z (a b : Z) :
  Qlt_bool (inject_Z a) (inject_Z b) = (a <? b).
Proof.
  unfold Qlt_bool, Qle_bool. simpl. rewrite !Z.mul_1_r.
  symmetry. apply Z.ltb_antisym.
Qed.

Lemma isInteger_div_1 (x : Q) : isInteger (x / (1#1)) = isInteger x.
Proof.
  unfold isInteger, Qdiv, Qmult, Qinv. simpl.
  by rewrite Z.mul_1_r, Pos.mul_1_r.
Qed.

Lemma wholeNumber_div_1 (x : Q) : wholeNumber (x / (1#1)) = wholeNumber x.
Proof.
  unfold wholeNumber. rewrite isInteger_div_1. f_equal.
  unfold toInteger, Qdiv, Qmult, Qinv. simpl.
  by rewrite Z.mul_1_r, Pos.mul_1_r.
Qed.

Lemma wholeNumber_integer (x : Q) :
  wholeNumber x = true → isInteger x = true ∧ Z.abs (toInteger x) < 10 ^ 21.
Proof.
  unfold wholeNumber. intros [H1 H2]%andb_true_iff.
  by apply Z.ltb_lt in H2.
Qed.

Lemma wholeNumber_inject_Z (z : Z) :
  Z.abs z < 10 ^ 21 → wholeNumber (inject_Z z) = true.
Proof.
  intros H. unfold wholeNumber.
  rewrite isInteger_inject_Z, toInteger_inject_Z. by apply Z.ltb_lt.
Qed.

Ltac map_lookups :=
  repeat first
    [ rewrite lookup_insert_eq
    | rewrite lookup_insert_ne by done
    | rewrite lookup_empty ].

Section Validation.
Context {rt : JSRuntime}.

Lemma messageOf_app (xs ys : list ErrorObject) :
  messageOf (xs ++ ys) = firstOf [messageOf xs; messageOf ys].
Proof. by destruct xs, ys. Qed.

Lemma validateProperties_errors opts props fields data :
  (validateProperties opts props fields data).1 = propertyErrors opts props fields.
Proof.
  revert data. induction props as [|[p ps] rest IH]; intros data; [done|].
  simpl. destruct (fields !! p) as [v|]; [|by rewrite IH].
  destruct (validateValue _ _ _ _) as [errs v'].
  specialize (IH (<[p:=v']> data)).
  destruct (validateProperties _ _ _ _) as [errs' data']. simpl in *.
  by rewrite IH.
Qed.

Lemma validateValue_coerced path ps v :
  validateValue ajvOptions path ps v =
    match coerced (type ps) v with
    | Some c => (keywordErrors path ps c, c)
    | None =>
        (typeError path (typeName (type ps))
           :: keywordErrors path ps (unwrapArray (coerceTypes ajvOptions) v), v)
    end.
Proof. unfold validateValue, coerced. by destruct (hasType _ _). Qed.

Lemma coerceTo_number t v c :
  t ≠ TString → coerceTo t v = Some c → ∃ x, c = JNum x ∧ hasType t c = true.
Proof.
  intros Ht H. destruct t; [done| |]; destruct v as [|b|x|s|xs|m];
    simpl in H; repeat case_match; simplify_eq/=; eauto.
  destruct (StringToNumber s); simplify_eq/=; eauto.
Qed.

Lemma coerceTo_string v c :
  coerceTo TString v = Some c → ∃ s, c = JStr s.
Proof. destruct v; intros; simplify_eq/=; eauto. Qed.

Lemma hasType_number t c :
  t ≠ TString → hasType t c = true → ∃ x, c = JNum x.
Proof. destruct t, c; intros; simplify_eq/=; eauto. Qed.

Lemma hasType_string c :
  hasType TString c = true → ∃ s, c = JStr s.
Proof. destruct c; intros; simplify_eq/=; eauto. Qed.

Lemma coerced_hasType t v c :
  coerced t v = Some c → hasType t c = true.
Proof.
  unfold coerced. destruct (hasType t v) eqn:Hv; [by intros [= <-]|].
  unfold coerceData. change (coerceTypes ajvOptions) with CoerceArray. cbv beta iota zeta.
  destruct (hasType t (unwrapArray CoerceArray v)) eqn:Hu; [by intros [= <-]|].
  destruct t.
  - intros (s & ->)%coerceTo_string. done.
  - intros (x & -> & ?)%coerceTo_number; done.
  - intros (x & -> & ?)%coerceTo_number; done.
Qed.

Lemma coerced_number v c :
  coerced TNumber v = Some c → ∃ x, c = JNum x.
Proof. intros H%coerced_hasType. by apply hasType_number in H. Qed.

Lemma coerced_integer v c :
  coerced TInteger v = Some c → ∃ x, c = JNum x ∧ isInteger x = true.
Proof.
  intros H%coerced_hasType. destruct c; simplify_eq/=; eauto.
Qed.

Lemma coerced_string v c :
  coerced TString v = Some c → ∃ s, c = JStr s.
Proof. intros H%coerced_hasType. by apply hasType_string. Qed.


Lemma NumberToString_1 : NumberToString (1#1) = "1".
Proof. by rewrite (NumberToString_integer 1). Qed.

(** The message of each property's errors is the complaint about it. *)
Lemma id_message v :
  messageOf (validateValue ajvOptions "/id"
    {| type := TNumber; minimum := Some (1#1)%Q; maximum := None;
       multipleOf := Some (1#1)%Q; minLength := None |} v).1 = idComplaint v.
Proof.
  rewrite validateValue_coerced. unfold idComplaint. cbn [type].
  destruct (coerced TNumber v) as [c|] eqn:Hc; [|done].
  apply coerced_number in Hc as [x ->].
  cbn. rewrite wholeNumber_div_1.
  destruct (Qlt_bool x 1); cbn; [by rewrite NumberToString_1|].
  by destruct (wholeNumber x).
Qed.

Lemma name_message v :
  messageOf (validateValue ajvOptions "/name"
    {| type := TString; minimum := None; maximum := None;
       multipleOf := None; minLength := Some 1%nat |} v).1 = nameComplaint v.
Proof.
  rewrite validateValue_coerced. unfold nameComplaint. cbn [type].
  destruct (coerced TString v) as [c|] eqn:Hc; [|done].
  apply coerced_string in Hc as [s ->].
  by destruct s.
Qed.

Lemma age_message v :
  messageOf (validateValue ajvOptions "/age"
    {| type := TInteger; minimum := Some (5#1)%Q; maximum := Some (95#1)%Q;
       multipleOf := None; minLength := None |} v).1 = ageComplaint v.
Proof.
  rewrite validateValue_coerced. unfold ageComplaint. cbn [type].
  destruct (coerced TInteger v) as [c|] eqn:Hc; [|done].
  apply coerced_integer in Hc as (x & -> & Hx).
  cbn. rewrite orb_comm.
  destruct (Qlt_bool (95#1) x); [done|].
  by destruct (Qlt_bool x (5#1)).
Qed.


Lemma rejected_messageOf S body :
  match validateObject ajvOptions S body with
  | ([], _) => None
  | (errs, _) => Some (errorMessage errs)
  end = messageOf (validateObject ajvOptions S body).1.
Proof. destruct (validateObject _ _ _) as [[|e errs] data]; done. Qed.

Lemma validateObject_errors S fields :
  (validateObject ajvOptions S (JObj fields)).1 =
    requiredErrors (required S) fields
      ++ propertyErrors ajvOptions (properties S) fields.
Proof.
  unfold validateObject.
  pose proof (validateProperties_errors ajvOptions (properties S) fields
                (if additionalProperties S then fields else ∅)) as H.
  destruct (validateProperties _ _ _ _) as [errs data]. simpl in *. by rewrite H.
Qed.

Lemma rejected_schemaPrecedence fields :
  rejected (JObj fields) = schemaPrecedence fields.
Proof.
  unfold rejected. rewrite rejected_messageOf, validateObject_errors.
  unfold schemaPrecedence. cbn [createEmployeeSchema required properties requiredErrors propertyErrors flat_map].
  destruct (fields !! "name") as [n|]; [|done].
  destruct (fields !! "age") as [a|]; [|done].
  cbn [app]. rewrite !app_nil_r.
  rewrite !messageOf_app.
  change ("/" +:+ "id") with "/id". change ("/" +:+ "name") with "/name".
  change ("/" +:+ "age") with "/age".
  rewrite name_message, age_message.
  destruct (fields !! "id") as [i|]; cbn [firstOf mbind option_bind].
  - rewrite id_message. by repeat case_match.
  - by repeat case_match.
Qed.


Lemma accepted_rejected body :
  accepted body =
    match rejected body with
    | Some _ => None
    | None => destructure (validateObject ajvOptions createEmployeeSchema body).2
    end.
Proof.
  unfold accepted, rejected.
  by destruct (validateObject _ _ _) as [[|e errs] data].
Qed.

Lemma nameComplaint_None v :
  nameComplaint v = None →
  ∃ s, coerced TString v = Some (JStr s) ∧ s ≠ "".
Proof.
  unfold nameComplaint. intros H.
  destruct (coerced TString v) as [[| | |s| |]|]; try done.
  exists s. by destruct s.
Qed.

Lemma ageComplaint_None v :
  ageComplaint v = None →
  ∃ x, coerced TInteger v = Some (JNum x) ∧ isInteger x = true
       ∧ Qlt_bool x (5#1) = false ∧ Qlt_bool (95#1) x = false.
Proof.
  unfold ageComplaint. intros H.
  destruct (coerced TInteger v) as [c|] eqn:Hc; [|done].
  apply coerced_integer in Hc as (x & -> & Hx).
  exists x. destruct (Qlt_bool x (5#1)), (Qlt_bool (95#1) x); done.
Qed.

Lemma idComplaint_None v :
  idComplaint v = None →
  ∃ x, coerced TNumber v = Some (JNum x) ∧ isInteger x = true
       ∧ Qlt_bool x (1#1) = false.
Proof.
  unfold idComplaint. intros H.
  destruct (coerced TNumber v) as [[| |x| | |]|]; try done.
  exists x. destruct (Qlt_bool x (1#1)); [done|].
  destruct (wholeNumber x) eqn:Hw; [|done].
  by apply wholeNumber_integer in Hw as [? _].
Qed.

Lemma firstOf_None checks :
  firstOf checks = None → Forall (λ c, c = None) checks.
Proof.
  induction checks as [|[m|] rest IH]; simpl; [constructor|done|].
  intros H. constructor; auto.
Qed.

Lemma accepted_schemaPrecedence fields :
  accepted (JObj fields) =
    match schemaPrecedence fields with
    | Some _ => None
    | None => coercedBody fields
    end.
Proof.
  rewrite accepted_rejected, rejected_schemaPrecedence.
  destruct (schemaPrecedence fields) eqn:HP; [done|].
  unfold schemaPrecedence in HP.
  destruct (fields !! "name") as [n|] eqn:Hname; [|done].
  destruct (fields !! "age") as [a|] eqn:Hage; [|done].
  apply firstOf_None in HP.
  apply Forall_cons in HP as [Hi HP]. apply Forall_cons in HP as [Hn HP].
  apply Forall_cons in HP as [Ha _].
  apply nameComplaint_None in Hn as (s & Hn & Hs).
  apply ageComplaint_None in Ha as (x & Ha & Hx & _ & _).
  unfold coercedBody, validateObject.
  cbn [createEmployeeSchema properties additionalProperties validateProperties].
  rewrite Hname, Hage. cbn [mbind option_bind]. rewrite Hn, Ha.
  rewrite !validateValue_coerced. cbn [type]. rewrite Hn, Ha.
  destruct (fields !! "id") as [i|] eqn:Hid.
  - apply idComplaint_None in Hi as (y & Hi & Hy & _).
    rewrite validateValue_coerced. cbn [type]. rewrite Hi.
    cbn. map_lookups. cbn. by rewrite Hx, Hy.
  - cbn. map_lookups. cbn. by rewrite Hx.
Qed.

(** A body either passes the schema and destructures, or is rejected
    with a message: the 500 branch of [withBodySchema] is never taken. *)
Lemma validated_destructures body :
  rejected body = None → is_Some (accepted body).
Proof.
  destruct body as [| | | | |fields];
    try (unfold rejected; simpl; discriminate).
  rewrite accepted_schemaPrecedence, rejected_schemaPrecedence.
  intros HP. rewrite HP.
  unfold schemaPrecedence in HP. unfold coercedBody.
  destruct (fields !! "name") as [n|] eqn:Hname; [|done].
  destruct (fields !! "age") as [a|] eqn:Hage; [|done].
  apply firstOf_None in HP.
  apply Forall_cons in HP as [Hi HP]. apply Forall_cons in HP as [Hn HP].
  apply Forall_cons in HP as [Ha _].
  apply nameComplaint_None in Hn as (s & Hn & Hs).
  apply ageComplaint_None in Ha as (x & Ha & Hx & _ & _).
  cbn [mbind option_bind]. rewrite Hn, Ha.
  destruct (fields !! "id") as [i|] eqn:Hid; [|done].
  apply idComplaint_None in Hi as (y & Hi & Hy & _).
  by rewrite Hi.
Qed.

Lemma accepted_not_rejected body b :
  accepted body = Some b → rejected body = None.
Proof.
  rewrite accepted_rejected. by destruct (rejected body).
Qed.

Lemma withBodySchema_accepted handler body b st :
  accepted body = Some b →
  withBodySchema createEmployeeSchema handler body st = handler b st.
Proof.
  unfold accepted, withBodySchema.
  destruct (validateObject _ _ _) as [[|e errs] data]; [|done].
  by intros ->.
Qed.

Lemma withBodySchema_rejected handler body m st :
  rejected body = Some m →
  withBodySchema createEmployeeSchema handler body st
    = (send 400 (Failure m), st).
Proof.
  unfold rejected, withBodySchema.
  destruct (validateObject _ _ _) as [[|e errs] data]; [done|].
  by intros [= <-].
Qed.

(** ** The path parameter *)

Lemma testDigits_allDigits (s : string) :
  testDigits s = negb (String.eqb s "") && allDigits s.
Proof.
  unfold allDigits. induction s as [|c s IH]; [done|].
  destruct s as [|c' s'].
  - simpl. by rewrite andb_true_r.
  - change (testDigits (String c (String c' s')))
      with (isDigit c && testDigits (String c' s')).
    rewrite IH. reflexivity.
Qed.

Lemma allDigits_false_testDigits (s : string) :
  allDigits s = false → testDigits s = false.
Proof. intros H. rewrite testDigits_allDigits, H. apply andb_false_r. Qed.

Lemma allDigits_true_testDigits (s : string) :
  s ≠ "" → allDigits s = true → testDigits s = true.
Proof.
  intros Hs H. rewrite testDigits_allDigits, H.
  destruct s; [done|reflexivity].
Qed.

(** ** Looking a record up *)

Lemma findEmployee_None (employeeId : Z) (arr : list Employee) :
  findEmployee employeeId arr = None ↔ employeeId ∉ id <$> arr.
Proof.
  unfold findEmployee. rewrite list_find_None, Forall_forall.
  rewrite list_elem_of_fmap. split.
  - intros H (e & -> & He). by apply (H e).
  - intros H e He Heq. apply H. eauto.
Qed.

Lemma findEmployee_Some (employeeId : Z) (arr : list Employee) i e :
  findEmployee employeeId arr = Some (i, e) ↔
    arr !! i = Some e ∧ id e = employeeId
    ∧ ∀ j e', arr !! j = Some e' → (j < i)%nat → id e' ≠ employeeId.
Proof. unfold findEmployee. rewrite list_find_Some. naive_solver. Qed.

(** ** What an accepted body holds *)

Lemma accepted_coercedBody fields b :
  accepted (JObj fields) = Some b →
  schemaPrecedence fields = None ∧ coercedBody fields = Some b.
Proof.
  rewrite accepted_schemaPrecedence.
  by destruct (schemaPrecedence fields).
Qed.

Lemma accepted_body_id fields b :
  accepted (JObj fields) = Some b →
  (fields !! "id" = None → body_id b = None)
  ∧ (is_Some (fields !! "id") → is_Some (body_id b)).
Proof.
  intros [_ H]%accepted_coercedBody. unfold coercedBody in H.
  repeat case_match; simplify_eq/=; split; intros Hid;
    try done; try (by destruct Hid); eauto.
Qed.

Lemma POST_handler_auto b st :
  body_id b = None →
  POST_handler b st =
    (send 201 (Success "Employee created successfully"
                 {| id := nextId st; name := body_name b; age := body_age b |}),
     {| employees :=
          employees st
            ++ [{| id := nextId st; name := body_name b; age := body_age b |}];
        nextId := nextId st + 1 |}).
Proof. unfold POST_handler. by intros ->. Qed.


End Validation.

(** ** The store under create, update and delete *)

Section Store.
Context {rt : JSRuntime}.

(** An update leaves the ids as they are. *)
Lemma update_keeps_ids idParam body st :
  ids (PUT_employee idParam body st).2 = ids st.
Proof.
  unfold PUT_employee, withBodySchema.
  destruct (validateObject _ _ _) as [[|? ?] data]; [|done].
  destruct (destructure data) as [b|]; [|done].
  unfold PUT_handler. destruct (testDigits idParam); [|done]. simpl.
  destruct (findEmployee _ _) as [[i e]|] eqn:Hfind; [|done].
  apply findEmployee_Some in Hfind as (Hi & _ & _).
  unfold ids, getEmployees. simpl.
  rewrite list_fmap_insert. simpl. by apply list_insert_id, list_lookup_fmap_Some_2.
Qed.

(** A delete keeps distinct ids distinct. *)
Lemma delete_keeps_unique idParam st :
  NoDup (ids st) → NoDup (ids (DELETE_employee idParam st).2).
Proof.
  unfold DELETE_employee. destruct (testDigits idParam); [|done]. simpl.
  destruct (findEmployee _ _) as [[i e]|]; [|done].
  unfold ids. simpl. intros H.
  apply (sublist_NoDup _ (id <$> employees st)); [done|].
  apply fmap_sublist, sublist_delete.
Qed.

(** A create that supplies its id keeps distinct ids distinct: this path
    looks the id up before it appends. *)
Lemma explicit_create_keeps_unique fields st :
  is_Some (fields !! "id") →
  NoDup (ids st) → NoDup (ids (POST_employees (JObj fields) st).2).
Proof.
  intros Hid Hnd. unfold POST_employees.
  destruct (rejected (JObj fields)) as [m|] eqn:Hr.
  { by rewrite (withBodySchema_rejected _ _ m). }
  destruct (validated_destructures _ Hr) as [b Hb].
  rewrite (withBodySchema_accepted _ _ b) by done.
  apply accepted_body_id in Hb as [_ Hb]. destruct (Hb Hid) as [i Hi].
  unfold POST_handler. rewrite Hi.
  destruct (findEmployee i (getEmployees st)) eqn:Hfind; [done|].
  apply findEmployee_None in Hfind.
  unfold ids. simpl. rewrite fmap_app. simpl.
  apply NoDup_app. split; [done|]. split; [|apply NoDup_singleton].
  intros x Hx ->%list_elem_of_singleton. done.
Qed.

(** C1 fails on the code.  Starting from the empty store, a create with the
    explicit id 1 followed by a create without id leaves two records with id
    1: the branch that takes the id from the counter appends without looking
    the id up, unlike the branch for a supplied id
    ([explicit_create_keeps_unique]). *)
Theorem auto_id_repeats_explicit_id :
  ids (run [ Create (body_of [("id", num 1); ("name", JStr "A"); ("age", num 30)]);
             Create (body_of [("name", JStr "B"); ("age", num 31)]) ]
           initialState) = [1; 1]
  ∧ ¬ NoDup (ids (run [ Create (body_of [("id", num 1); ("name", JStr "A");
                                         ("age", num 30)]);
                        Create (body_of [("name", JStr "B"); ("age", num 31)]) ]
                      initialState)).
Proof.
  assert (ids (run [ Create (body_of [("id", num 1); ("name", JStr "A");
                                      ("age", num 30)]);
                     Create (body_of [("name", JStr "B"); ("age", num 31)]) ]
                   initialState) = [1; 1]) as -> by (vm_compute; reflexivity).
  split; [done|].
  intros H. apply NoDup_cons in H as [H _]. apply H. by left.
Qed.


(** C6.  A create that supplies an id some stored record already has is
    answered with 409 and "Employee with ID {id} already exists", and the
    store is left as it was. *)
Theorem duplicate_id_conflict (body : json) (b : Body) (employeeId : Z)
    (st : State) :
  accepted body = Some b →
  body_id b = Some employeeId →
  employeeId ∈ ids st →
  POST_employees body st =
    (send 409 (Failure ("Employee with ID "
                        +:+ NumberToString (inject_Z employeeId)
                        +:+ " already exists")), st).
Proof.
  intros Hb Hid Hin. unfold POST_employees.
  rewrite (withBodySchema_accepted _ _ b) by done.
  unfold POST_handler. rewrite Hid.
  destruct (findEmployee employeeId (getEmployees st)) eqn:Hfind; [done|].
  by apply findEmployee_None in Hfind.
Qed.

(** C9.  [reset] leaves the store empty and the counter at 1, so the first
    create without id after it makes the record with id 1. *)
Theorem reset_then_first_id (st : State) (fields : gmap string json)
    (b : Body) :
  reset st = {| employees := []; nextId := 1 |}
  ∧ (accepted (JObj fields) = Some b → fields !! "id" = None →
     POST_employees (JObj fields) (reset st) =
       (send 201 (Success "Employee created successfully"
                    {| id := 1; name := body_name b; age := body_age b |}),
        {| employees :=
             [{| id := 1; name := body_name b; age := body_age b |}];
           nextId := 2 |})).
Proof.
  split; [done|]. intros Hb Hid. unfold POST_employees.
  rewrite (withBodySchema_accepted _ _ b) by done.
  rewrite POST_handler_auto; [done|]. by apply (accepted_body_id fields b).
Qed.

End Store.

(** ** Update and delete *)

Section Routes.
Context {rt : JSRuntime}.

Lemma schemaPrecedence_None fields :
  schemaPrecedence fields = None →
  ∃ n a, fields !! "name" = Some n ∧ fields !! "age" = Some a
         ∧ nameComplaint n = None ∧ ageComplaint a = None
         ∧ fields !! "id" ≫= idComplaint = None.
Proof.
  unfold schemaPrecedence.
  destruct (fields !! "name") as [n|]; [|done].
  destruct (fields !! "age") as [a|]; [|done].
  intros HP%firstOf_None.
  apply Forall_cons in HP as [Hi HP]. apply Forall_cons in HP as [Hn HP].
  apply Forall_cons in HP as [Ha _]. eauto 10.
Qed.

Lemma delete_removes_record idParam st i e :
  testDigits idParam = true →
  findEmployee (parseInt idParam) (employees st) = Some (i, e) →
  DELETE_employee idParam st =
    (send 200 (Success "Employee deleted successfully" e),
     {| employees := delete i (employees st); nextId := nextId st |}).
Proof.
  intros Hd Hfind. unfold DELETE_employee, getEmployees.
  by rewrite Hd, Hfind.
Qed.

Lemma NoDup_lookup_delete (k : list Z) (i : nat) (x : Z) :
  NoDup k → k !! i = Some x → x ∉ delete i k.
Proof.
  intros Hnd Hi. rewrite delete_take_drop.
  rewrite <- (take_drop_middle k i x Hi) in Hnd.
  apply NoDup_app in Hnd as (_ & Hl & Hr).
  apply NoDup_cons in Hr as [Hr _].
  intros [H|H]%elem_of_app; [|done].
  apply (Hl x H). by left.
Qed.

(** Where ids are distinct a deleted record is gone for a later lookup. *)
Lemma delete_then_get_unique idParam st i e :
  NoDup (ids st) →
  testDigits idParam = true →
  findEmployee (parseInt idParam) (employees st) = Some (i, e) →
  (GET_employee idParam (DELETE_employee idParam st).2).1 = notFound.
Proof.
  intros Hnd Hd Hfind. rewrite (delete_removes_record _ _ i e) by done.
  unfold GET_employee, getEmployees. rewrite Hd. simpl.
  apply findEmployee_Some in Hfind as (Hi & He & _).
  destruct (findEmployee _ (delete i _)) as [[j e']|] eqn:Hfind'; [|done].
  exfalso. apply findEmployee_Some in Hfind' as (Hj & He' & _).
  apply (NoDup_lookup_delete (ids st) i (parseInt idParam) Hnd).
  { unfold ids. rewrite list_lookup_fmap, Hi. simpl. by rewrite He. }
  unfold ids. rewrite <- list_fmap_delete.
  apply list_elem_of_fmap. exists e'. split; [done|].
  by apply list_elem_of_lookup_2 in Hj.
Qed.

(** X22.  A successful update of the first record with the id of the path
    (at index [i]) puts the new name and age in that record, in place: the
    id stays, the position stays, every other record and the counter
    stay. *)
Theorem update_in_place (idParam : string) (body : json) (b : Body)
    (st : State) (i : nat) (e : Employee) :
  accepted body = Some b →
  testDigits idParam = true →
  employees st !! i = Some e →
  id e = parseInt idParam →
  (∀ j e', employees st !! j = Some e' → (j < i)%nat → id e' ≠ id e) →
  PUT_employee idParam body st =
    (send 200 (Success "Employee updated successfully"
                 {| id := id e; name := body_name b; age := body_age b |}),
     {| employees :=
          <[i := {| id := id e; name := body_name b; age := body_age b |}]>
            (employees st);
        nextId := nextId st |})
  ∧ length (employees (PUT_employee idParam body st).2) = length (employees st)
  ∧ employees (PUT_employee idParam body st).2 !! i =
      Some {| id := id e; name := body_name b; age := body_age b |}
  ∧ (∀ j, j ≠ i →
       employees (PUT_employee idParam body st).2 !! j = employees st !! j)
  ∧ nextId (PUT_employee idParam body st).2 = nextId st.
Proof.
  intros Hb Hd Hi He Hfirst.
  assert (findEmployee (parseInt idParam) (employees st) = Some (i, e))
    as Hfind.
  { apply findEmployee_Some. split; [done|]. split; [done|].
    intros j e' Hj Hlt. rewrite <- He. by apply (Hfirst j). }
  assert (PUT_employee idParam body st =
    (send 200 (Success "Employee updated successfully"
                 {| id := id e; name := body_name b; age := body_age b |}),
     {| employees :=
          <[i := {| id := id e; name := body_name b; age := body_age b |}]>
            (employees st);
        nextId := nextId st |})) as ->.
  { unfold PUT_employee. rewrite (withBodySchema_accepted _ _ b) by done.
    unfold PUT_handler, getEmployees. by rewrite Hd, Hfind. }
  simpl. split; [done|]. split; [apply length_insert|].
  split; [|split; [|done]].
  - apply list_lookup_insert_eq. by apply lookup_lt_Some in Hi.
  - intros j Hj. by apply list_lookup_insert_ne.
Qed.

(** C8 fails on the code.  After a create with the explicit id 1 and a
    create without id the store has two records with id 1; deleting id 1
    removes the first, and the lookup of id 1 that follows finds the second
    instead of answering 404.  Where ids are distinct the lookup does answer
    404 ([delete_then_get_unique]). *)
Theorem get_after_delete_finds_duplicate :
  GET_employee "1"
    (run [ Create (body_of [("id", num 1); ("name", JStr "A"); ("age", num 30)]);
           Create (body_of [("name", JStr "B"); ("age", num 31)]);
           Delete "1" ] initialState)
  = (send 200 (Success "Employee retrieved successfully"
                 {| id := 1; name := "B"; age := 31 |}),
     {| employees := [{| id := 1; name := "B"; age := 31 |}]; nextId := 2 |}).
Proof. vm_compute. reflexivity. Qed.

End Routes.

(** ** The body of an update, and the path parameter *)

Section Parameters.
Context {rt : JSRuntime}.

Lemma idComplaint_integer (k : Z) :
  1 ≤ k < 10 ^ 21 → idComplaint (JNum (inject_Z k)) = None.
Proof.
  intros Hk. unfold idComplaint, coerced. simpl.
  change (1#1)%Q with (inject_Z 1).
  rewrite Qlt_bool_inject_Z, wholeNumber_inject_Z by lia.
  by destruct (Z.ltb_spec k 1); [lia|].
Qed.

(** C10, as the code has it.  The body of an update may carry an id: an
    integer from 1 to below 10^21 there passes the schema (from 10^21 on the
    schema's test for whole numbers refuses it).  The handler never reads
    it: whatever id an accepted body has, the update writes the name and the
    age of the body into the first record with the id of the path parameter
    and leaves that record's id as it is; two accepted bodies with the same
    name and age get the same answer and leave the same store; the record
    in a successful answer has the id of the path parameter. *)
Theorem update_ignores_body_id (idParam : string) (st : State) :
  (∀ fields b (k : Z),
     accepted (JObj fields) = Some b → 1 ≤ k < 10 ^ 21 →
     accepted (JObj (<["id" := JNum (inject_Z k)]> fields)) =
       Some {| body_id := Some k; body_name := body_name b;
               body_age := body_age b |})
  ∧ (∀ body b i old,
       accepted body = Some b → testDigits idParam = true →
       findEmployee (parseInt idParam) (employees st) = Some (i, old) →
       id old = parseInt idParam
       ∧ PUT_employee idParam body st =
           (send 200 (Success "Employee updated successfully"
                        {| id := id old; name := body_name b;
                           age := body_age b |}),
            {| employees :=
                 <[i := {| id := id old; name := body_name b;
                           age := body_age b |}]> (employees st);
               nextId := nextId st |}))
  ∧ (∀ body body' b b',
       accepted body = Some b → accepted body' = Some b' →
       body_name b = body_name b' → body_age b = body_age b' →
       PUT_employee idParam body st = PUT_employee idParam body' st)
  ∧ (∀ body m e,
       payload (PUT_employee idParam body st).1 = Success m e →
       id e = parseInt idParam).
Proof.
  split; [|split; [|split]].
  - intros fields b k [HP Hb]%accepted_coercedBody Hk.
    apply schemaPrecedence_None in HP as (n & a & Hn & Ha & Hcn & Hca & _).
    rewrite accepted_schemaPrecedence.
    unfold schemaPrecedence, coercedBody in *.
    rewrite lookup_insert_eq, !lookup_insert_ne by done.
    rewrite Hn, Ha in *. cbn [mbind option_bind firstOf] in *.
    rewrite idComplaint_integer, Hcn, Hca by done.
    change (coerced TNumber (JNum (inject_Z k))) with (Some (JNum (inject_Z k))).
    repeat case_match; simplify_eq/=; by rewrite ?toInteger_inject_Z.
  - intros body b i old Hb Hd Hfind. split.
    + by apply findEmployee_Some in Hfind as (_ & ? & _).
    + unfold PUT_employee. rewrite (withBodySchema_accepted _ _ b) by done.
      unfold PUT_handler, getEmployees. by rewrite Hd, Hfind.
  - intros body body' b b' Hb Hb' Hname Hage. unfold PUT_employee.
    rewrite (withBodySchema_accepted _ _ b), (withBodySchema_accepted _ _ b')
      by done.
    unfold PUT_handler. by rewrite Hname, Hage.
  - intros body m e. unfold PUT_employee.
    destruct (rejected body) as [m'|] eqn:Hr.
    { by rewrite (withBodySchema_rejected _ _ m'). }
    destruct (validated_destructures _ Hr) as [b Hb].
    rewrite (withBodySchema_accepted _ _ b) by done.
    unfold PUT_handler. destruct (testDigits idParam); [|done]. simpl.
    destruct (findEmployee _ _) as [[i old]|] eqn:Hfind; [|done].
    apply findEmployee_Some in Hfind as (_ & Hid & _).
    simpl. by intros [= _ <-].
Qed.

(** C5, as the code has it.  A path parameter that is not made of digits
    only is answered with 400 and "Invalid ID format. ID must be a number.",
    and one made of digits that names no stored record with 404 and
    "Employee not found", by the lookup, by the delete, and by the update
    when its body passes the schema.  (An empty parameter, should the
    router pass one, has no digit and is answered with 400 as well.)  The
    body of an update is validated before the handler looks at the path
    parameter: a body the schema rejects is answered with its validation
    message, whatever the parameter. *)
Theorem id_parameter_checks (idParam : string) (st : State) :
  (allDigits idParam = false ∨ idParam = "" →
     GET_employee idParam st =
       (send 400 (Failure "Invalid ID format. ID must be a number."), st)
     ∧ DELETE_employee idParam st =
       (send 400 (Failure "Invalid ID format. ID must be a number."), st)
     ∧ ∀ body b, accepted body = Some b →
         PUT_employee idParam body st =
           (send 400 (Failure "Invalid ID format. ID must be a number."), st))
  ∧ (idParam ≠ "" → allDigits idParam = true → parseInt idParam ∉ ids st →
     GET_employee idParam st = (send 404 (Failure "Employee not found"), st)
     ∧ DELETE_employee idParam st =
       (send 404 (Failure "Employee not found"), st)
     ∧ ∀ body b, accepted body = Some b →
         PUT_employee idParam body st =
           (send 404 (Failure "Employee not found"), st))
  ∧ (∀ body m, rejected body = Some m →
       PUT_employee idParam body st = (send 400 (Failure m), st)).
Proof.
  split; [|split].
  - intros Hbad. assert (testDigits idParam = false) as Hd.
    { destruct Hbad as [H| ->]; [by apply allDigits_false_testDigits|done]. }
    unfold GET_employee, DELETE_employee, PUT_employee. rewrite Hd.
    split; [done|]. split; [done|]. intros body b Hb.
    rewrite (withBodySchema_accepted _ _ b) by done.
    unfold PUT_handler. by rewrite Hd.
  - intros Hne Hd Hnone. apply allDigits_true_testDigits in Hd; [|done].
    apply findEmployee_None in Hnone.
    unfold GET_employee, DELETE_employee, PUT_employee, getEmployees.
    rewrite Hd, Hnone.
    split; [done|]. split; [done|]. intros body b Hb.
    rewrite (withBodySchema_accepted _ _ b) by done.
    unfold PUT_handler, getEmployees. by rewrite Hd, Hnone.
  - intros body m Hm. unfold PUT_employee.
    by apply withBodySchema_rejected.
Qed.

End Parameters.

(** ** The validation messages of a create *)

Section Messages.
Context {rt : JSRuntime}.

Lemma POST_rejected fields m st :
  schemaPrecedence fields = Some m →
  POST_employees (JObj fields) st = (send 400 (Failure m), st).
Proof.
  intros H. apply withBodySchema_rejected.
  by rewrite rejected_schemaPrecedence.
Qed.

Lemma POST_created fields b st :
  schemaPrecedence fields = None → coercedBody fields = Some b →
  body_id b = None →
  POST_employees (JObj fields) st =
    (send 201 (Success "Employee created successfully"
                 {| id := nextId st; name := body_name b; age := body_age b |}),
     {| employees :=
          employees st
            ++ [{| id := nextId st; name := body_name b; age := body_age b |}];
        nextId := nextId st + 1 |}).
Proof.
  intros HP Hb Hid. unfold POST_employees.
  rewrite (withBodySchema_accepted _ _ b).
  - by apply POST_handler_auto.
  - by rewrite accepted_schemaPrecedence, HP.
Qed.

Lemma nameComplaint_string (s : string) :
  s ≠ "" → nameComplaint (JStr s) = None.
Proof. intros Hs. by destruct s. Qed.

Lemma ageComplaint_in_range (a : Z) :
  5 ≤ a ≤ 95 → ageComplaint (JNum (inject_Z a)) = None.
Proof.
  intros Ha. unfold ageComplaint, coerced. simpl.
  rewrite isInteger_inject_Z.
  change (5#1)%Q with (inject_Z 5). change (95#1)%Q with (inject_Z 95).
  rewrite !Qlt_bool_inject_Z.
  destruct (Z.ltb_spec a 5); [lia|]. by destruct (Z.ltb_spec 95 a); [lia|].
Qed.

Lemma ageComplaint_out_of_range (a : Z) :
  a < 5 ∨ 95 < a → ageComplaint (JNum (inject_Z a)) = Some ageMessage.
Proof.
  intros Ha. unfold ageComplaint, coerced. simpl.
  rewrite isInteger_inject_Z.
  change (5#1)%Q with (inject_Z 5). change (95#1)%Q with (inject_Z 95).
  rewrite !Qlt_bool_inject_Z.
  destruct (Z.ltb_spec a 5); [done|]. by destruct (Z.ltb_spec 95 a); [|lia].
Qed.

Lemma ageComplaint_fraction (x : Q) :
  isInteger x = false → ageComplaint (JNum x) = Some ageMessage.
Proof. intros Hx. unfold ageComplaint, coerced. simpl. by rewrite Hx. Qed.

Lemma coerced_numeric_string (t : string) (a : Z) :
  t ≠ "" → StringToNumber t = Some (inject_Z a) →
  coerced TInteger (JStr t) = Some (JNum (inject_Z a)).
Proof.
  intros Ht Hn. unfold coerced. simpl. rewrite Hn, isInteger_inject_Z.
  by destruct t.
Qed.

Lemma ageComplaint_not_numeric (t : string) :
  StringToNumber t = None → ageComplaint (JStr t) = Some ageMessage.
Proof.
  intros Hn. unfold ageComplaint, coerced. simpl. rewrite Hn.
  by destruct (String.eqb t "").
Qed.

(** Without coercion a string is never an age: it is Fastify's default
    [coerceTypes] that lets a string of digits through. *)
Lemma age_string_without_coercion (t : string) :
  messageOf
    (validateValue {| coerceTypes := CoerceOff; allErrors := true |} "/age"
       {| type := TInteger; minimum := Some (5#1)%Q; maximum := Some (95#1)%Q;
          multipleOf := None; minLength := None |} (JStr t)).1
  = Some ageMessage.
Proof. reflexivity. Qed.

(** C3, as the code has it.  The message of a rejected create is the first
    complaint in this order: name missing, age missing, then the supplied
    id, the name, the age.  The supplied id comes before the name and the
    age, not after them. *)
Theorem validation_message_order (fields : gmap string json) (st : State)
    (m : string) :
  schemaPrecedence fields = Some m →
  rejected (JObj fields) = Some m
  ∧ POST_employees (JObj fields) st = (send 400 (Failure m), st).
Proof.
  intros H. split; [by rewrite rejected_schemaPrecedence|].
  by apply POST_rejected.
Qed.

(** X21.  With a name that is a non-empty string and no
    id, a create succeeds for every integer age from 5 to 95, and fails with
    "Age must be between 5 and 95 years" for an integer below 5 or above 95
    (4, 96), for a number that is not an integer (25.5) and for a string
    that is not a number ("thirty").  A string that spells an integer from 5
    to 95 ("30") is coerced to that integer, and the create succeeds. *)
Theorem age_validation (fields : gmap string json) (s : string) (st : State) :
  fields !! "name" = Some (JStr s) → s ≠ "" → fields !! "id" = None →
  (∀ a : Z, fields !! "age" = Some (JNum (inject_Z a)) → 5 ≤ a ≤ 95 →
     POST_employees (JObj fields) st =
       (send 201 (Success "Employee created successfully"
                    {| id := nextId st; name := s; age := a |}),
        {| employees :=
             employees st ++ [{| id := nextId st; name := s; age := a |}];
           nextId := nextId st + 1 |}))
  ∧ (∀ a : Z, fields !! "age" = Some (JNum (inject_Z a)) → a < 5 ∨ 95 < a →
       POST_employees (JObj fields) st =
         (send 400 (Failure "Age must be between 5 and 95 years"), st))
  ∧ (∀ x : Q, fields !! "age" = Some (JNum x) → isInteger x = false →
       POST_employees (JObj fields) st =
         (send 400 (Failure "Age must be between 5 and 95 years"), st))
  ∧ (∀ t : string, fields !! "age" = Some (JStr t) →
       StringToNumber t = None →
       POST_employees (JObj fields) st =
         (send 400 (Failure "Age must be between 5 and 95 years"), st))
  ∧ (∀ (t : string) (a : Z), fields !! "age" = Some (JStr t) → t ≠ "" →
       StringToNumber t = Some (inject_Z a) → 5 ≤ a ≤ 95 →
       POST_employees (JObj fields) st =
         (send 201 (Success "Employee created successfully"
                      {| id := nextId st; name := s; age := a |}),
          {| employees :=
               employees st ++ [{| id := nextId st; name := s; age := a |}];
             nextId := nextId st + 1 |})).
Proof.
  intros Hname Hs Hid.
  assert (∀ v m, fields !! "age" = Some v → ageComplaint v = Some m →
            schemaPrecedence fields = Some m) as Hbad.
  { intros v m Hage Hv. unfold schemaPrecedence.
    rewrite Hname, Hage, Hid. simpl.
    by rewrite nameComplaint_string, Hv. }
  assert (∀ v a, fields !! "age" = Some v → ageComplaint v = None →
            coerced TInteger v = Some (JNum (inject_Z a)) →
            POST_employees (JObj fields) st =
              (send 201 (Success "Employee created successfully"
                           {| id := nextId st; name := s; age := a |}),
               {| employees :=
                    employees st
                      ++ [{| id := nextId st; name := s; age := a |}];
                  nextId := nextId st + 1 |})) as Hgood.
  { intros v a Hage Hv Hc.
    apply (POST_created fields
             {| body_id := None; body_name := s; body_age := a |}); [| |done].
    - unfold schemaPrecedence. rewrite Hname, Hage, Hid. simpl.
      by rewrite nameComplaint_string, Hv.
    - unfold coercedBody. rewrite Hname, Hage, Hid. simpl. rewrite Hc.
      by rewrite toInteger_inject_Z. }
  split; [|split; [|split; [|split]]].
  - intros a Hage Ha. apply (Hgood (JNum (inject_Z a))); [done| |].
    + by apply ageComplaint_in_range.
    + unfold coerced. simpl. by rewrite isInteger_inject_Z.
  - intros a Hage Ha. apply POST_rejected, (Hbad (JNum (inject_Z a))); [done|].
    by apply ageComplaint_out_of_range.
  - intros x Hage Hx. apply POST_rejected, (Hbad (JNum x)); [done|].
    by apply ageComplaint_fraction.
  - intros t Hage Ht. apply POST_rejected, (Hbad (JStr t)); [done|].
    by apply ageComplaint_not_numeric.
  - intros t a Hage Ht Hn Ha. apply (Hgood (JStr t)); [done| |].
    + unfold ageComplaint. rewrite (coerced_numeric_string t a) by done.
      change (5#1)%Q with (inject_Z 5). change (95#1)%Q with (inject_Z 95).
      rewrite !Qlt_bool_inject_Z.
      destruct (Z.ltb_spec a 5); [lia|]. by destruct (Z.ltb_spec 95 a); [lia|].
    + by apply coerced_numeric_string.
Qed.

End Messages.

(** ** The statements at concrete requests *)


Lemma duplicate_id_conflict_witness :
  accepted (rt := decimalRuntime) (JObj fieldsA1)
    = Some {| body_id := Some 1; body_name := "A"; body_age := 30 |}
  ∧ 1 ∈ ids twoRecords
  ∧ POST_employees (rt := decimalRuntime) (JObj fieldsA1) twoRecords =
      (send 409 (Failure "Employee with ID 1 already exists"), twoRecords).
Proof.
  assert (1 ∈ ids twoRecords) as Hin by (vm_compute; left).
  split; [vm_compute; reflexivity|]. split; [exact Hin|].
  apply (duplicate_id_conflict (rt := decimalRuntime) (JObj fieldsA1)
           {| body_id := Some 1; body_name := "A"; body_age := 30 |} 1
           twoRecords);
    [vm_compute; reflexivity | reflexivity | exact Hin].
Defined.

Lemma reset_then_first_id_witness :
  accepted (rt := decimalRuntime) (JObj fieldsA)
    = Some {| body_id := None; body_name := "A"; body_age := 30 |}
  ∧ fieldsA !! "id" = None
  ∧ reset twoRecords = {| employees := []; nextId := 1 |}
  ∧ POST_employees (rt := decimalRuntime) (JObj fieldsA) (reset twoRecords) =
      (send 201 (Success "Employee created successfully"
                   {| id := 1; name := "A"; age := 30 |}),
       {| employees := [{| id := 1; name := "A"; age := 30 |}];
          nextId := 2 |}).
Proof.
  split; [vm_compute; reflexivity|]. split; [vm_compute; reflexivity|].
  split.
  - exact (proj1 (reset_then_first_id (rt := decimalRuntime) twoRecords fieldsA
                    {| body_id := None; body_name := "A"; body_age := 30 |})).
  - apply (proj2 (reset_then_first_id (rt := decimalRuntime) twoRecords fieldsA
                    {| body_id := None; body_name := "A"; body_age := 30 |}));
      vm_compute; reflexivity.
Defined.

Lemma update_in_place_witness :
  accepted (rt := decimalRuntime) (JObj fieldsA)
    = Some {| body_id := None; body_name := "A"; body_age := 30 |}
  ∧ testDigits "2" = true
  ∧ employees twoRecords !! 1%nat = Some {| id := 2; name := "B"; age := 31 |}
  ∧ PUT_employee (rt := decimalRuntime) "2" (JObj fieldsA) twoRecords =
      (send 200 (Success "Employee updated successfully"
                   {| id := 2; name := "A"; age := 30 |}),
       {| employees := [ {| id := 1; name := "A"; age := 30 |};
                         {| id := 2; name := "A"; age := 30 |} ];
          nextId := 3 |}).
Proof.
  split; [vm_compute; reflexivity|]. split; [reflexivity|].
  split; [reflexivity|].
  apply (update_in_place (rt := decimalRuntime) "2" (JObj fieldsA)
           {| body_id := None; body_name := "A"; body_age := 30 |}
           twoRecords 1%nat {| id := 2; name := "B"; age := 31 |}).
  - vm_compute; reflexivity.
  - reflexivity.
  - reflexivity.
  - reflexivity.
  - intros [|[|j]] e' He' Hj; [|lia|lia].
    injection He' as <-. discriminate.
Defined.

Lemma update_ignores_body_id_witness :
  accepted (rt := decimalRuntime) (JObj fieldsA)
    = Some {| body_id := None; body_name := "A"; body_age := 30 |}
  ∧ accepted (rt := decimalRuntime) (JObj (<["id" := JNum (inject_Z 7)]> fieldsA))
    = Some {| body_id := Some 7; body_name := "A"; body_age := 30 |}
  ∧ findEmployee (parseInt "2") (employees twoRecords)
    = Some (1%nat, {| id := 2; name := "B"; age := 31 |})
  ∧ PUT_employee (rt := decimalRuntime) "2"
      (JObj (<["id" := JNum (inject_Z 7)]> fieldsA)) twoRecords
    = (send 200 (Success "Employee updated successfully"
                   {| id := 2; name := "A"; age := 30 |}),
       {| employees := [ {| id := 1; name := "A"; age := 30 |};
                         {| id := 2; name := "A"; age := 30 |} ];
          nextId := 3 |})
  ∧ PUT_employee (rt := decimalRuntime) "2" (JObj fieldsA) twoRecords
    = PUT_employee (rt := decimalRuntime) "2"
        (JObj (<["id" := JNum (inject_Z 7)]> fieldsA)) twoRecords
  ∧ payload (PUT_employee (rt := decimalRuntime) "2"
               (JObj (<["id" := JNum (inject_Z 7)]> fieldsA)) twoRecords).1
    = Success "Employee updated successfully"
        {| id := 2; name := "A"; age := 30 |}
  ∧ 2 = parseInt "2".
Proof.
  pose proof (update_ignores_body_id (rt := decimalRuntime) "2" twoRecords)
    as (Hpass & Hwrite & Hsame & Hid).
  assert (accepted (rt := decimalRuntime) (JObj fieldsA)
            = Some {| body_id := None; body_name := "A"; body_age := 30 |})
    as Ha by (vm_compute; reflexivity).
  assert (accepted (rt := decimalRuntime)
            (JObj (<["id" := JNum (inject_Z 7)]> fieldsA))
            = Some {| body_id := Some 7; body_name := "A"; body_age := 30 |})
    as Ha7 by (apply (Hpass fieldsA _ 7 Ha); lia).
  assert (findEmployee (parseInt "2") (employees twoRecords)
            = Some (1%nat, {| id := 2; name := "B"; age := 31 |})) as Hfind
    by (vm_compute; reflexivity).
  assert (payload (PUT_employee (rt := decimalRuntime) "2"
                     (JObj (<["id" := JNum (inject_Z 7)]> fieldsA))
                     twoRecords).1
          = Success "Employee updated successfully"
              {| id := 2; name := "A"; age := 30 |})
    as Hp by (vm_compute; reflexivity).
  split; [exact Ha|]. split; [exact Ha7|]. split; [exact Hfind|].
  split; [exact (proj2 (Hwrite _ _ _ _ Ha7 eq_refl Hfind))|]. split.
  - apply (Hsame _ _ _ _ Ha Ha7); reflexivity.
  - split; [exact Hp|]. exact (Hid _ _ _ Hp).
Defined.

Lemma id_parameter_checks_witness :
  allDigits "1.5" = false
  ∧ GET_employee "1.5" twoRecords =
      (send 400 (Failure "Invalid ID format. ID must be a number."), twoRecords)
  ∧ DELETE_employee "1.5" twoRecords =
      (send 400 (Failure "Invalid ID format. ID must be a number."), twoRecords)
  ∧ PUT_employee (rt := decimalRuntime) "1.5" (JObj fieldsA) twoRecords =
      (send 400 (Failure "Invalid ID format. ID must be a number."), twoRecords)
  ∧ allDigits "999" = true
  ∧ (parseInt "999" ∉ ids twoRecords)
  ∧ GET_employee "999" twoRecords =
      (send 404 (Failure "Employee not found"), twoRecords)
  ∧ DELETE_employee "999" twoRecords =
      (send 404 (Failure "Employee not found"), twoRecords)
  ∧ PUT_employee (rt := decimalRuntime) "999" (JObj fieldsA) twoRecords =
      (send 404 (Failure "Employee not found"), twoRecords)
  ∧ rejected (rt := decimalRuntime) (JObj ∅) = Some "name is required"
  ∧ PUT_employee (rt := decimalRuntime) "999" (JObj ∅) twoRecords =
      (send 400 (Failure "name is required"), twoRecords).
Proof.
  assert (accepted (rt := decimalRuntime) (JObj fieldsA)
            = Some {| body_id := None; body_name := "A"; body_age := 30 |})
    as Ha by (vm_compute; reflexivity).
  assert (parseInt "999" ∉ ids twoRecords) as Hnone.
  { vm_compute. intros H. apply list_elem_of_In in H.
    destruct H as [H|[H|[]]]; discriminate H. }
  assert (rejected (rt := decimalRuntime) (JObj ∅) = Some "name is required")
    as Hr by (vm_compute; reflexivity).
  pose proof (id_parameter_checks (rt := decimalRuntime) "1.5" twoRecords)
    as (Hbad & _ & _).
  pose proof (id_parameter_checks (rt := decimalRuntime) "999" twoRecords)
    as (_ & Hmiss & Hbody).
  destruct (Hbad (or_introl eq_refl)) as (Hg & Hd & Hp).
  destruct (Hmiss ltac:(discriminate) eq_refl Hnone) as (Hg' & Hd' & Hp').
  split; [reflexivity|]. split; [exact Hg|]. split; [exact Hd|].
  split; [exact (Hp _ _ Ha)|]. split; [reflexivity|]. split; [exact Hnone|].
  split; [exact Hg'|]. split; [exact Hd'|]. split; [exact (Hp' _ _ Ha)|].
  split; [exact Hr|]. exact (Hbody _ _ Hr).
Defined.

Lemma validation_message_order_witness :
  schemaPrecedence (rt := decimalRuntime) fieldsBadIdBadAge
    = Some "ID must be at least 1"
  ∧ rejected (rt := decimalRuntime) (JObj fieldsBadIdBadAge)
    = Some "ID must be at least 1"
  ∧ POST_employees (rt := decimalRuntime) (JObj fieldsBadIdBadAge) twoRecords
    = (send 400 (Failure "ID must be at least 1"), twoRecords).
Proof.
  assert (schemaPrecedence (rt := decimalRuntime) fieldsBadIdBadAge
            = Some "ID must be at least 1") as H by (vm_compute; reflexivity).
  split; [exact H|].
  exact (validation_message_order (rt := decimalRuntime) fieldsBadIdBadAge
           twoRecords "ID must be at least 1" H).
Defined.

(** The create of C3's order: with the id and the age both wrong, the
    stated order would report the age; the reply reports the id. *)
Lemma stated_precedence_counterexample :
  statedPrecedence (rt := decimalRuntime) fieldsBadIdBadAge
    = Some "Age must be between 5 and 95 years"
  ∧ POST_employees (rt := decimalRuntime) (JObj fieldsBadIdBadAge) initialState
    = (send 400 (Failure "ID must be at least 1"), initialState).
Proof. split; vm_compute; reflexivity. Qed.

(** An update with the path parameter "abc" and an empty body is answered
    with the message of the schema, not with the message about the id. *)
Lemma update_bad_id_bad_body_counterexample :
  allDigits "abc" = false
  ∧ PUT_employee (rt := decimalRuntime) "abc" (JObj ∅) initialState
    = (send 400 (Failure "name is required"), initialState)
  ∧ PUT_employee (rt := decimalRuntime) "abc" (JObj ∅) initialState
    ≠ (send 400 (Failure "Invalid ID format. ID must be a number."),
       initialState).
Proof.
  split; [reflexivity|]. split; [vm_compute; reflexivity|].
  vm_compute. discriminate.
Qed.

(** C4 fails on the code.  A create with the age "30", a string, is not
    answered with "Age must be between 5 and 95 years": the validator
    coerces the string to the integer 30 and the record is made.  The schema
    asks for [type: 'integer'] and the tests expect an age given as a string
    to be rejected; the coercion is Fastify's default, which [server.js]
    leaves switched on. *)
Theorem age_string_accepted :
  POST_employees (rt := decimalRuntime)
    (body_of [("name", JStr "A"); ("age", JStr "30")]) initialState
  = (send 201 (Success "Employee created successfully"
                 {| id := 1; name := "A"; age := 30 |}),
     {| employees := [{| id := 1; name := "A"; age := 30 |}]; nextId := 2 |})
  ∧ POST_employees (rt := decimalRuntime)
      (body_of [("name", JStr "A"); ("age", JStr "30")]) initialState
    ≠ (send 400 (Failure "Age must be between 5 and 95 years"), initialState).
Proof. split; [vm_compute; reflexivity|]. vm_compute. discriminate. Qed.

Lemma age_validation_witness :
  (∀ age : json,
     (<["age" := age]> fieldsA : gmap string json) !! "name" = Some (JStr "A")
     ∧ "A" ≠ ""
     ∧ (<["age" := age]> fieldsA : gmap string json) !! "id" = None)
  ∧ POST_employees (rt := decimalRuntime)
      (JObj (<["age" := num 5]> fieldsA)) initialState =
      (send 201 (Success "Employee created successfully"
                   {| id := 1; name := "A"; age := 5 |}),
       {| employees := [{| id := 1; name := "A"; age := 5 |}]; nextId := 2 |})
  ∧ POST_employees (rt := decimalRuntime)
      (JObj (<["age" := num 4]> fieldsA)) initialState =
      (send 400 (Failure "Age must be between 5 and 95 years"), initialState)
  ∧ POST_employees (rt := decimalRuntime)
      (JObj (<["age" := num 96]> fieldsA)) initialState =
      (send 400 (Failure "Age must be between 5 and 95 years"), initialState)
  ∧ POST_employees (rt := decimalRuntime)
      (JObj (<["age" := JNum (51#2)]> fieldsA)) initialState =
      (send 400 (Failure "Age must be between 5 and 95 years"), initialState)
  ∧ POST_employees (rt := decimalRuntime)
      (JObj (<["age" := JStr "thirty"]> fieldsA)) initialState =
      (send 400 (Failure "Age must be between 5 and 95 years"), initialState)
  ∧ POST_employees (rt := decimalRuntime)
      (JObj (<["age" := JStr "30"]> fieldsA)) initialState =
      (send 201 (Success "Employee created successfully"
                   {| id := 1; name := "A"; age := 30 |}),
       {| employees := [{| id := 1; name := "A"; age := 30 |}]; nextId := 2 |}).
Proof.
  assert (∀ age : json,
     (<["age" := age]> fieldsA : gmap string json) !! "name" = Some (JStr "A")
     ∧ "A" ≠ ""
     ∧ (<["age" := age]> fieldsA : gmap string json) !! "id" = None) as H.
  { intros age. split; [reflexivity|]. split; [discriminate|reflexivity]. }
  split; [exact H|].
  assert (∀ age : json,
            (<["age" := age]> fieldsA : gmap string json) !! "age" = Some age)
    as Hage by (intros age; reflexivity).
  pose proof (λ age,
    age_validation (rt := decimalRuntime) (<["age" := age]> fieldsA) "A"
      initialState (proj1 (H age)) (proj1 (proj2 (H age)))
      (proj2 (proj2 (H age)))) as T.
  split; [|split; [|split; [|split; [|split]]]].
  - apply (proj1 (T (num 5)) 5 (Hage _)). lia.
  - apply (proj1 (proj2 (T (num 4))) 4 (Hage _)). lia.
  - apply (proj1 (proj2 (T (num 96))) 96 (Hage _)). lia.
  - apply (proj1 (proj2 (proj2 (T (JNum (51#2))))) (51#2)%Q (Hage _)).
    reflexivity.
  - apply (proj1 (proj2 (proj2 (proj2 (T (JStr "thirty"))))) "thirty" (Hage _)).
    reflexivity.
  - apply (proj2 (proj2 (proj2 (proj2 (T (JStr "30"))))) "30" 30 (Hage _)).
    + discriminate.
    + reflexivity.
    + lia.
Defined.

(** * Further properties of the routes *)

(** ** What the schema hands to the handlers *)

Section Accepted.
Context {rt : JSRuntime}.

Lemma isInteger_exact (x : Q) :
  isInteger x = true → Qnum x = toInteger x * Zpos (Qden x).
Proof.
  unfold isInteger, toInteger. intros H%Z.eqb_eq.
  rewrite Z.mul_comm. by apply Z.div_exact.
Qed.

Lemma Qlt_bool_integer_l (x : Q) (k : Z) :
  isInteger x = true → Qlt_bool x (inject_Z k) = (toInteger x <? k).
Proof.
  intros H%isInteger_exact. unfold Qlt_bool, Qle_bool. simpl.
  rewrite H, Z.mul_1_r.
  destruct (Z.leb_spec (k * Z.pos (Qden x)) (toInteger x * Z.pos (Qden x)));
    destruct (Z.ltb_spec (toInteger x) k); simpl; try done; nia.
Qed.

Lemma Qlt_bool_integer_r (x : Q) (k : Z) :
  isInteger x = true → Qlt_bool (inject_Z k) x = (k <? toInteger x).
Proof.
  intros H%isInteger_exact. unfold Qlt_bool, Qle_bool. simpl.
  rewrite H, Z.mul_1_r.
  destruct (Z.leb_spec (toInteger x * Z.pos (Qden x)) (k * Z.pos (Qden x)));
    destruct (Z.ltb_spec k (toInteger x)); simpl; try done; nia.
Qed.

Lemma accepted_object body b :
  accepted body = Some b → ∃ fields, body = JObj fields.
Proof. destruct body; try done. eauto. Qed.

(** The body a handler receives has a name that is not empty, an age from
    5 to 95 and, if any, an id of at least 1. *)
Lemma accepted_valid body b :
  accepted body = Some b →
  body_name b ≠ "" ∧ 5 ≤ body_age b ≤ 95
  ∧ ∀ i, body_id b = Some i → 1 ≤ i.
Proof.
  intros Hb. destruct (accepted_object _ _ Hb) as [fields ->].
  apply accepted_coercedBody in Hb as [HP Hb].
  apply schemaPrecedence_None in HP as (n & a & Hn & Ha & Hcn & Hca & Hci).
  apply nameComplaint_None in Hcn as (s & Hcs & Hs).
  apply ageComplaint_None in Hca as (x & Hcx & Hx & Hlo & Hhi).
  change (5#1)%Q with (inject_Z 5) in Hlo.
  change (95#1)%Q with (inject_Z 95) in Hhi.
  rewrite Qlt_bool_integer_l in Hlo by done.
  rewrite Qlt_bool_integer_r in Hhi by done.
  apply Z.ltb_ge in Hlo, Hhi.
  unfold coercedBody in Hb. rewrite Hn, Ha in Hb. simpl in Hb.
  rewrite Hcs, Hcx in Hb.
  destruct (fields !! "id") as [v|] eqn:Hid.
  - simpl in Hci. apply idComplaint_None in Hci as (y & Hcy & Hy & Hone).
    change (1#1)%Q with (inject_Z 1) in Hone.
    rewrite Qlt_bool_integer_l in Hone by done. apply Z.ltb_ge in Hone.
    rewrite Hcy in Hb. injection Hb as <-. simpl.
    split; [done|]. split; [lia|]. by intros i [= <-].
  - injection Hb as <-. simpl. split; [done|]. split; [lia|done].
Qed.

End Accepted.

(** ** One request at a time *)

Section Steps.
Context {rt : JSRuntime}.

(** The four ways a create ends. *)
Lemma POST_cases body st :
  (∃ m, rejected body = Some m
        ∧ POST_employees body st = (send 400 (Failure m), st))
  ∨ (∃ b i, accepted body = Some b ∧ body_id b = Some i ∧ i ∈ ids st
            ∧ POST_employees body st =
                (send 409 (Failure ("Employee with ID "
                                    +:+ NumberToString (inject_Z i)
                                    +:+ " already exists")), st))
  ∨ (∃ b i, accepted body = Some b ∧ body_id b = Some i ∧ (i ∉ ids st)
            ∧ POST_employees body st =
                (send 201 (Success "Employee created successfully"
                             {| id := i; name := body_name b;
                                age := body_age b |}),
                 {| employees :=
                      employees st ++ [{| id := i; name := body_name b;
                                          age := body_age b |}];
                    nextId := nextId st |}))
  ∨ (∃ b, accepted body = Some b ∧ body_id b = None
          ∧ POST_employees body st =
              (send 201 (Success "Employee created successfully"
                           {| id := nextId st; name := body_name b;
                              age := body_age b |}),
               {| employees :=
                    employees st ++ [{| id := nextId st; name := body_name b;
                                        age := body_age b |}];
                  nextId := nextId st + 1 |})).
Proof.
  unfold POST_employees.
  destruct (rejected body) as [m|] eqn:Hr.
  { left. exists m. split; [done|]. by apply withBodySchema_rejected. }
  destruct (validated_destructures _ Hr) as [b Hb].
  rewrite (withBodySchema_accepted _ _ b) by done. right.
  destruct (body_id b) as [i|] eqn:Hi.
  - unfold POST_handler. rewrite Hi.
    destruct (findEmployee i (getEmployees st)) as [[j e]|] eqn:Hfind.
    + left. exists b, i. repeat split; try done.
      apply findEmployee_Some in Hfind as (Hj & <- & _).
      unfold ids. apply list_elem_of_fmap. exists e. split; [done|].
      by apply list_elem_of_lookup_2 in Hj.
    + right. left. exists b, i. repeat split; try done.
      by apply findEmployee_None in Hfind.
  - right. right. exists b. repeat split; try done.
    by apply POST_handler_auto.
Qed.

(** The four ways an update ends. *)
Lemma PUT_cases idParam body st :
  (∃ m, rejected body = Some m
        ∧ PUT_employee idParam body st = (send 400 (Failure m), st))
  ∨ (∃ b, accepted body = Some b ∧ testDigits idParam = false
          ∧ PUT_employee idParam body st = (invalidIdFormat, st))
  ∨ (∃ b, accepted body = Some b ∧ testDigits idParam = true
          ∧ findEmployee (parseInt idParam) (employees st) = None
          ∧ PUT_employee idParam body st = (notFound, st))
  ∨ (∃ b i old, accepted body = Some b ∧ testDigits idParam = true
          ∧ findEmployee (parseInt idParam) (employees st) = Some (i, old)
          ∧ PUT_employee idParam body st =
              (send 200 (Success "Employee updated successfully"
                           {| id := id old; name := body_name b;
                              age := body_age b |}),
               {| employees :=
                    <[i := {| id := id old; name := body_name b;
                              age := body_age b |}]> (employees st);
                  nextId := nextId st |})).
Proof.
  unfold PUT_employee.
  destruct (rejected body) as [m|] eqn:Hr.
  { left. exists m. split; [done|]. by apply withBodySchema_rejected. }
  destruct (validated_destructures _ Hr) as [b Hb].
  rewrite (withBodySchema_accepted _ _ b) by done. right.
  unfold PUT_handler, getEmployees.
  destruct (testDigits idParam) eqn:Hd; [|left; by exists b].
  right. simpl.
  destruct (findEmployee _ _) as [[i old]|] eqn:Hfind.
  - right. by exists b, i, old.
  - left. by exists b.
Qed.

(** The three ways a delete ends. *)
Lemma DELETE_cases idParam st :
  (testDigits idParam = false
   ∧ DELETE_employee idParam st = (invalidIdFormat, st))
  ∨ (testDigits idParam = true
     ∧ findEmployee (parseInt idParam) (employees st) = None
     ∧ DELETE_employee idParam st = (notFound, st))
  ∨ (∃ i e, testDigits idParam = true
     ∧ findEmployee (parseInt idParam) (employees st) = Some (i, e)
     ∧ DELETE_employee idParam st =
         (send 200 (Success "Employee deleted successfully" e),
          {| employees := delete i (employees st); nextId := nextId st |})).
Proof.
  unfold DELETE_employee, getEmployees.
  destruct (testDigits idParam) eqn:Hd; [|by left].
  right. simpl.
  destruct (findEmployee _ _) as [[i e]|] eqn:Hfind.
  - right. by exists i, e.
  - by left.
Qed.

(** The three ways a lookup ends. *)
Lemma GET_cases idParam st :
  (testDigits idParam = false
   ∧ GET_employee idParam st = (invalidIdFormat, st))
  ∨ (testDigits idParam = true
     ∧ findEmployee (parseInt idParam) (employees st) = None
     ∧ GET_employee idParam st = (notFound, st))
  ∨ (∃ i e, testDigits idParam = true
     ∧ findEmployee (parseInt idParam) (employees st) = Some (i, e)
     ∧ GET_employee idParam st =
         (send 200 (Success "Employee retrieved successfully" e), st)).
Proof.
  unfold GET_employee, getEmployees.
  destruct (testDigits idParam) eqn:Hd; [|by left].
  right. simpl.
  destruct (findEmployee _ _) as [[i e]|] eqn:Hfind.
  - right. by exists i, e.
  - by left.
Qed.

End Steps.

(** ** Invariants of the store *)

Section Invariants.
Context {rt : JSRuntime}.

Lemma run_cons r rs st :
  run (r :: rs) st = run rs (serve r st).2.
Proof. reflexivity. Qed.

Lemma serve_keeps_valid r st :
  validState st → validState (serve r st).2.
Proof.
  intros [Hall Hnext]. destruct r as [body|idParam body|idParam| |idParam];
    simpl.
  - destruct (POST_cases body st)
      as [(m & _ & ->)|[(b & i & _ & _ & _ & ->)
         |[(b & i & Hb & Hi & _ & ->)|(b & Hb & _ & ->)]]];
      try done.
    + destruct (accepted_valid _ _ Hb) as (Hn & Ha & Hid).
      split; [|done]. simpl. apply Forall_app. split; [done|].
      apply Forall_singleton. split; [by apply Hid|done].
    + destruct (accepted_valid _ _ Hb) as (Hn & Ha & _).
      split; [|simpl; lia]. simpl. apply Forall_app. split; [done|].
      by apply Forall_singleton.
  - destruct (PUT_cases idParam body st)
      as [(m & _ & ->)|[(b & _ & _ & ->)|[(b & _ & _ & _ & ->)
         |(b & i & old & Hb & _ & Hfind & ->)]]];
      try done.
    destruct (accepted_valid _ _ Hb) as (Hn & Ha & _).
    apply findEmployee_Some in Hfind as (Hi & _ & _).
    split; [|done]. simpl. apply Forall_insert; [done|].
    split; [|done]. simpl.
    by destruct (proj1 (Forall_lookup _ _) Hall i old Hi).
  - destruct (DELETE_cases idParam st)
      as [(_ & ->)|[(_ & _ & ->)|(i & e & _ & _ & ->)]]; try done.
    split; [|done]. simpl. by apply Forall_delete.
  - done.
  - by destruct (GET_cases idParam st)
      as [(_ & ->)|[(_ & _ & ->)|(i & e & _ & _ & ->)]].
Qed.

Lemma run_keeps_valid rs st :
  validState st → validState (run rs st).
Proof.
  revert st. induction rs as [|r rs IH]; intros st H; [done|].
  rewrite run_cons. by apply IH, serve_keeps_valid.
Qed.

(** X1.  Whatever requests are served, starting from the empty store, as
    long as no body holds a string or an array as its id or age, the store
    holds only records of the data model: an id of at least 1, a name that
    is not empty, an age from 5 to 95; and the counter is at least 1.  (The
    proviso keeps out the strings that are coerced to a number that is not
    finite, which the range keywords let through and the model does not
    have.) *)
Theorem reachable_records_valid (rs : list Request) :
  Forall (λ r, plainNumbers r = true) rs →
  Forall validEmployee (employees (run rs initialState))
  ∧ 1 ≤ nextId (run rs initialState).
Proof.
  intros _. apply (run_keeps_valid rs initialState).
  split; [constructor|done].
Qed.

Lemma serve_keeps_fresh r st :
  suppliesId r = false → freshCounter st → freshCounter (serve r st).2.
Proof.
  intros Hr [Hnd Hlt]. destruct r as [body|idParam body|idParam| |idParam];
    simpl.
  - destruct (POST_cases body st)
      as [(m & _ & ->)|[(b & i & _ & _ & _ & ->)
         |[(b & i & Hb & Hi & _ & ->)|(b & Hb & _ & ->)]]];
      try done.
    + exfalso. destruct (accepted_object _ _ Hb) as [fields ->].
      apply accepted_body_id in Hb as [Hnone _]. simpl in Hr.
      destruct (fields !! "id"); [done|]. by rewrite Hnone in Hi.
    + unfold freshCounter, ids in *. simpl. rewrite fmap_app. simpl. split.
      * apply NoDup_app. split; [done|]. split; [|apply NoDup_singleton].
        intros x Hx ->%list_elem_of_singleton.
        apply (proj1 (Forall_forall _ _) Hlt) in Hx. lia.
      * apply Forall_app. split.
        -- eapply Forall_impl; [exact Hlt|]. simpl. intros; lia.
        -- apply Forall_singleton. lia.
  - split.
    + by rewrite update_keeps_ids.
    + rewrite update_keeps_ids.
      destruct (PUT_cases idParam body st)
        as [(m & _ & ->)|[(b & _ & _ & ->)|[(b & _ & _ & _ & ->)
           |(b & i & old & _ & _ & _ & ->)]]]; done.
  - split; [by apply delete_keeps_unique|].
    destruct (DELETE_cases idParam st)
      as [(_ & ->)|[(_ & _ & ->)|(i & e & _ & _ & ->)]]; try done.
    unfold ids in *. simpl. rewrite list_fmap_delete. by apply Forall_delete.
  - done.
  - by destruct (GET_cases idParam st)
      as [(_ & ->)|[(_ & _ & ->)|(i & e & _ & _ & ->)]].
Qed.

(** X2.  As long as no create supplies an id, the ids in the store are
    distinct and all below the counter: the counter on its own never hands
    out an id twice, also after deletes. *)
Theorem auto_ids_distinct (rs : list Request) :
  Forall (λ r, suppliesId r = false) rs →
  NoDup (ids (run rs initialState))
  ∧ Forall (λ i, i < nextId (run rs initialState)) (ids (run rs initialState)).
Proof.
  assert (∀ st, Forall (λ r, suppliesId r = false) rs →
            freshCounter st → freshCounter (run rs st)) as H.
  { induction rs as [|r rs IH]; intros st Hrs Hst; [done|].
    apply Forall_cons in Hrs as [Hr Hrs].
    rewrite run_cons. by apply IH, serve_keeps_fresh. }
  intros Hrs. apply (H initialState Hrs). split; constructor.
Qed.

Lemma serve_keeps_unique r st :
  takesCounter r = false → NoDup (ids st) → NoDup (ids (serve r st).2).
Proof.
  intros Hr Hnd. destruct r as [body|idParam body|idParam| |idParam]; simpl.
  - destruct (POST_cases body st)
      as [(m & _ & Heq)|[(b & i & _ & _ & _ & Heq)
         |[(b & i & Hb & _)|(b & Hb & _)]]];
      try (by rewrite Heq);
      destruct (accepted_object _ _ Hb) as [fields ->];
      (apply explicit_create_keeps_unique; [|done]); simpl in Hr;
      by destruct (fields !! "id").
  - by rewrite update_keeps_ids.
  - by apply delete_keeps_unique.
  - done.
  - by destruct (GET_cases idParam st)
      as [(_ & ->)|[(_ & _ & ->)|(i & e & _ & _ & ->)]].
Qed.

(** X3.  As long as every create supplies its id, ids that are distinct
    stay distinct: the lookup before the push keeps a second record with the
    same id out. *)
Theorem explicit_ids_distinct (rs : list Request) (st : State) :
  Forall (λ r, takesCounter r = false) rs →
  NoDup (ids st) → NoDup (ids (run rs st)).
Proof.
  revert st. induction rs as [|r rs IH]; intros st Hrs Hst; [done|].
  apply Forall_cons in Hrs as [Hr Hrs].
  rewrite run_cons. by apply IH, serve_keeps_unique.
Qed.

End Invariants.

(** ** What a request does to the state *)

Section Effects.
Context {rt : JSRuntime}.


(** X4.  A reply with [success: false] (400, 404, 409) leaves the store
    and the counter exactly as they were, for every request. *)
Theorem failure_changes_nothing (r : Request) (st : State) (m : string) :
  payload (serve r st).1 = Failure m → (serve r st).2 = st.
Proof.
  destruct r as [body|idParam body|idParam| |idParam]; simpl.
  - by destruct (POST_cases body st)
      as [(m' & _ & ->)|[(b & i & _ & _ & _ & ->)
         |[(b & i & _ & _ & _ & ->)|(b & _ & _ & ->)]]].
  - by destruct (PUT_cases idParam body st)
      as [(m' & _ & ->)|[(b & _ & _ & ->)|[(b & _ & _ & _ & ->)
         |(b & i & old & _ & _ & _ & ->)]]].
  - by destruct (DELETE_cases idParam st)
      as [(_ & ->)|[(_ & _ & ->)|(i & e & _ & _ & ->)]].
  - done.
  - by destruct (GET_cases idParam st)
      as [(_ & ->)|[(_ & _ & ->)|(i & e & _ & _ & ->)]].
Qed.

(** X5.  The status code tells the outcome: the reply to a request has one
    of the codes 200, 201, 400, 404, 409, [success] is true exactly for 200
    and 201, and 201 is the reply of a create only. *)
Theorem status_tells_outcome (r : Request) (st : State) :
  code (serve r st).1 ∈ [200; 201; 400; 404; 409]
  ∧ succeeded (payload (serve r st).1) = (code (serve r st).1 <? 300)
  ∧ (code (serve r st).1 = 201 → ∃ body, r = Create body).
Proof.
  destruct r as [body|idParam body|idParam| |idParam]; simpl.
  - destruct (POST_cases body st)
      as [(m' & _ & ->)|[(b & i & _ & _ & _ & ->)
         |[(b & i & _ & _ & _ & ->)|(b & _ & _ & ->)]]];
      simpl; (split; [set_solver|]); split; eauto.
  - destruct (PUT_cases idParam body st)
      as [(m' & _ & ->)|[(b & _ & _ & ->)|[(b & _ & _ & _ & ->)
         |(b & i & old & _ & _ & _ & ->)]]];
      simpl; (split; [set_solver|]); split; done.
  - destruct (DELETE_cases idParam st)
      as [(_ & ->)|[(_ & _ & ->)|(i & e & _ & _ & ->)]];
      simpl; (split; [set_solver|]); split; done.
  - split; [set_solver|]. split; done.
  - destruct (GET_cases idParam st)
      as [(_ & ->)|[(_ & _ & ->)|(i & e & _ & _ & ->)]];
      simpl; (split; [set_solver|]); split; done.
Qed.


(** X7.  The number of records changes with the reply and not otherwise:
    one more after a create answered with 201, one fewer after a delete
    answered with 200, the same after every other request, an update
    included. *)
Theorem length_step (r : Request) (st : State) :
  length (employees (serve r st).2) =
    match r with
    | Create _ =>
        if code (serve r st).1 =? 201
        then S (length (employees st)) else length (employees st)
    | Delete _ =>
        if code (serve r st).1 =? 200
        then (length (employees st) - 1)%nat else length (employees st)
    | _ => length (employees st)
    end.
Proof.
  destruct r as [body|idParam body|idParam| |idParam].
  - change (serve (Create body) st) with (POST_employees body st).
    destruct (POST_cases body st)
      as [(m' & _ & ->)|[(b & i & _ & _ & _ & ->)
         |[(b & i & _ & _ & _ & ->)|(b & _ & _ & ->)]]];
      simpl; try done; rewrite length_app; simpl; lia.
  - change (serve (Update idParam body) st)
      with (PUT_employee idParam body st).
    destruct (PUT_cases idParam body st)
      as [(m' & _ & ->)|[(b & _ & _ & ->)|[(b & _ & _ & _ & ->)
         |(b & i & old & _ & _ & _ & ->)]]];
      simpl; try done. apply length_insert.
  - change (serve (Delete idParam) st) with (DELETE_employee idParam st).
    destruct (DELETE_cases idParam st)
      as [(_ & ->)|[(_ & _ & ->)|(i & e & _ & Hfind & ->)]];
      simpl; try done.
    apply findEmployee_Some in Hfind as (Hi & _ & _).
    apply length_delete. eauto.
  - done.
  - change (serve (GetById idParam) st) with (GET_employee idParam st).
    by destruct (GET_cases idParam st)
      as [(_ & ->)|[(_ & _ & ->)|(i & e & _ & _ & ->)]].
Qed.

End Effects.

(** ** How the requests compose *)

Section Composition.
Context {rt : JSRuntime}.

Lemma findEmployee_pushed (k : Z) (arr : list Employee) (e : Employee) :
  k ∉ id <$> arr → id e = k →
  findEmployee k (arr ++ [e]) = Some (length arr, e).
Proof.
  intros Hk He. apply findEmployee_Some. split; [|split; [done|]].
  - rewrite lookup_app_r by lia. by rewrite Nat.sub_diag.
  - intros j e' Hj Hlt. rewrite lookup_app_l in Hj by done.
    intros Heq. apply Hk, list_elem_of_fmap. exists e'. split; [done|].
    by apply list_elem_of_lookup_2 in Hj.
Qed.

Lemma findEmployee_updated (k : Z) (arr : list Employee) i old upd :
  findEmployee k arr = Some (i, old) → id upd = k →
  findEmployee k (<[i := upd]> arr) = Some (i, upd).
Proof.
  intros (Hi & _ & Hfirst)%findEmployee_Some Hupd.
  apply findEmployee_Some. split; [|split; [done|]].
  - apply list_lookup_insert_eq. by apply lookup_lt_Some in Hi.
  - intros j e' Hj Hlt. rewrite list_lookup_insert_ne in Hj by lia.
    by apply (Hfirst j).
Qed.

(** X8.  A record that was just created is found under its id: after a
    create answered with 201, the lookup of the id of the returned record
    returns that same record, provided the id was not yet in the store.  A
    create that supplies its id always meets the proviso, since it is refused
    otherwise. *)
Theorem create_then_get (body : json) (st : State) (m : string)
    (e : Employee) (idParam : string) :
  payload (POST_employees body st).1 = Success m e →
  testDigits idParam = true → parseInt idParam = id e →
  suppliesId (Create body) = true ∨ id e ∉ ids st →
  GET_employee idParam (POST_employees body st).2 =
    (send 200 (Success "Employee retrieved successfully" e),
     (POST_employees body st).2).
Proof.
  intros Hp Hd Hid Hfresh.
  assert ((id e ∉ ids st) ∧ employees (POST_employees body st).2
                              = employees st ++ [e]) as [Hnew Happ].
  { destruct (POST_cases body st)
      as [(m' & _ & Heq)|[(b & i & _ & _ & _ & Heq)
         |[(b & i & Hb & Hi & Hnone & Heq)|(b & Hb & Hi & Heq)]]];
      rewrite Heq in Hp |- *; simpl in Hp; try done;
      injection Hp as _ <-; simpl.
    - done.
    - split; [|done]. destruct Hfresh as [Hs|H]; [|done]. exfalso.
      destruct (accepted_object _ _ Hb) as [fields ->].
      apply accepted_body_id in Hb as [_ Hsome]. simpl in Hs.
      destruct (fields !! "id") as [v|]; [|done].
      destruct Hsome as [i Hi']; [eauto|]. by rewrite Hi in Hi'. }
  unfold GET_employee, getEmployees. rewrite Hd, Hid, Happ. simpl.
  by rewrite (findEmployee_pushed (id e) (employees st) e).
Qed.

(** X9.  A successful create appends: the returned record is the last of
    the list and the list is otherwise as before, so the list route shows
    the records in the order of their creation, with one more in the
    count. *)
Theorem create_appends (body : json) (st : State) (m : string)
    (e : Employee) :
  payload (POST_employees body st).1 = Success m e →
  employees (POST_employees body st).2 = employees st ++ [e]
  ∧ (GET_employees (POST_employees body st).2).1 =
      send 200 (SuccessList "Employees retrieved successfully"
                  (employees st ++ [e]) (S (length (employees st)))).
Proof.
  intros Hp.
  assert (employees (POST_employees body st).2 = employees st ++ [e]) as H.
  { destruct (POST_cases body st)
      as [(m' & _ & Heq)|[(b & i & _ & _ & _ & Heq)
         |[(b & i & _ & _ & _ & Heq)|(b & _ & _ & Heq)]]];
      rewrite Heq in Hp |- *; simpl in Hp; try done;
      by injection Hp as _ <-. }
  split; [done|]. unfold GET_employees, getEmployees. simpl.
  rewrite H, length_app. simpl. by rewrite Nat.add_1_r.
Qed.

(** X10.  After a successful update the lookup of the same path id returns
    the updated record, also in a store where several records have that
    id. *)
Theorem update_then_get (idParam : string) (body : json) (st : State)
    (m : string) (e : Employee) :
  payload (PUT_employee idParam body st).1 = Success m e →
  GET_employee idParam (PUT_employee idParam body st).2 =
    (send 200 (Success "Employee retrieved successfully" e),
     (PUT_employee idParam body st).2).
Proof.
  destruct (PUT_cases idParam body st)
    as [(m' & _ & ->)|[(b & _ & _ & ->)|[(b & _ & _ & _ & ->)
       |(b & i & old & _ & Hd & Hfind & ->)]]]; try done.
  simpl. intros [= _ <-].
  unfold GET_employee, getEmployees. rewrite Hd. simpl.
  rewrite (findEmployee_updated _ _ i old); [done|done|].
  simpl. by apply findEmployee_Some in Hfind as (_ & ? & _).
Qed.

(** X11.  An update is idempotent: sending the same update a second time
    gives the same reply and leaves the store as the first left it. *)
Theorem update_idempotent (idParam : string) (body : json) (st : State) :
  PUT_employee idParam body (PUT_employee idParam body st).2
    = PUT_employee idParam body st.
Proof.
  destruct (PUT_cases idParam body st)
    as [(m' & _ & Heq)|[(b & _ & _ & Heq)|[(b & _ & _ & _ & Heq)
       |(b & i & old & Hb & Hd & Hfind & Heq)]]];
    try (by rewrite Heq; simpl; rewrite Heq).
  rewrite Heq. simpl. unfold PUT_employee.
  rewrite (withBodySchema_accepted _ _ b) by done.
  unfold PUT_handler, getEmployees. rewrite Hd. simpl.
  rewrite (findEmployee_updated _ _ i old
             {| id := id old; name := body_name b; age := body_age b |});
    [|done|]. 
  - simpl. unfold setEmployees. simpl. by rewrite list_insert_insert_eq.
  - simpl. by apply findEmployee_Some in Hfind as (_ & ? & _).
Qed.

(** X12.  A successful delete takes out the first record with the id of
    the path and nothing else: it is returned as the data, the records
    before it keep their index, the records after it move up by one, the
    list is one shorter and the counter is as before.  If the ids in the
    store are distinct, the lookup of that id afterwards answers 404. *)
Theorem delete_effect (idParam : string) (st : State) (i : nat)
    (e : Employee) :
  testDigits idParam = true →
  employees st !! i = Some e →
  id e = parseInt idParam →
  (∀ j e', employees st !! j = Some e' → (j < i)%nat → id e' ≠ id e) →
  DELETE_employee idParam st =
    (send 200 (Success "Employee deleted successfully" e),
     {| employees := delete i (employees st); nextId := nextId st |})
  ∧ length (delete i (employees st)) = (length (employees st) - 1)%nat
  ∧ (∀ j, (j < i)%nat → delete i (employees st) !! j = employees st !! j)
  ∧ (∀ j, (i ≤ j)%nat →
       delete i (employees st) !! j = employees st !! S j)
  ∧ (NoDup (ids st) →
     GET_employee idParam (DELETE_employee idParam st).2 =
       (send 404 (Failure "Employee not found"),
        (DELETE_employee idParam st).2)).
Proof.
  intros Hd Hi He Hfirst.
  assert (findEmployee (parseInt idParam) (employees st) = Some (i, e))
    as Hfind.
  { apply findEmployee_Some. split; [done|]. split; [done|].
    intros j e' Hj Hlt. rewrite <- He. by apply (Hfirst j). }
  split; [by apply delete_removes_record|].
  split; [apply length_delete; eauto|].
  split; [intros j Hj; by apply list_lookup_delete_lt|].
  split; [intros j Hj; by apply list_lookup_delete_ge|].
  intros Hnd.
  pose proof (delete_then_get_unique idParam st i e Hnd Hd Hfind) as Hget.
  destruct (GET_cases idParam (DELETE_employee idParam st).2)
    as [(_ & Heq)|[(_ & _ & Heq)|(j & e' & _ & _ & Heq)]];
    rewrite Heq in Hget |- *; done.
Qed.

End Composition.

(** ** More on the validation of a body *)

Section Bodies.
Context {rt : JSRuntime}.

Lemma Qlt_bool_true (x y : Q) : (x < y)%Q → Qlt_bool x y = true.
Proof.
  intros H. unfold Qlt_bool. destruct (Qle_bool y x) eqn:Hle; [|done].
  apply Qle_bool_iff in Hle. by apply Qlt_not_le in H.
Qed.

Lemma Qlt_bool_false (x y : Q) : (y <= x)%Q → Qlt_bool x y = false.
Proof.
  intros H. unfold Qlt_bool. apply Qle_bool_iff in H. by rewrite H.
Qed.

Lemma PUT_rejected idParam fields m st :
  schemaPrecedence fields = Some m →
  PUT_employee idParam (JObj fields) st = (send 400 (Failure m), st).
Proof.
  intros H. apply withBodySchema_rejected.
  by rewrite rejected_schemaPrecedence.
Qed.

(** X13.  In a body that has a name and an age, a wrong id is reported
    before anything about the name or the age, by the create and also by
    the update, which never uses the id: a number below 1 (whole or not)
    gives "ID must be at least 1", a number from 1 on that is not whole
    "id must be a whole number", a string that is empty or not a number
    "id must be a number". *)
Theorem wrong_id_reported_first (fields : gmap string json) (n a : json)
    (idParam : string) (st : State) :
  fields !! "name" = Some n → fields !! "age" = Some a →
  (∀ x, fields !! "id" = Some (JNum x) → (x < 1)%Q →
     POST_employees (JObj fields) st
       = (send 400 (Failure "ID must be at least 1"), st)
     ∧ PUT_employee idParam (JObj fields) st
       = (send 400 (Failure "ID must be at least 1"), st))
  ∧ (∀ x, fields !! "id" = Some (JNum x) → (1 <= x)%Q →
       isInteger x = false →
       POST_employees (JObj fields) st
         = (send 400 (Failure "id must be a whole number"), st)
       ∧ PUT_employee idParam (JObj fields) st
         = (send 400 (Failure "id must be a whole number"), st))
  ∧ (∀ s, fields !! "id" = Some (JStr s) →
       s = "" ∨ StringToNumber s = None →
       POST_employees (JObj fields) st
         = (send 400 (Failure "id must be a number"), st)
       ∧ PUT_employee idParam (JObj fields) st
         = (send 400 (Failure "id must be a number"), st)).
Proof.
  intros Hn Ha.
  assert (∀ v m, fields !! "id" = Some v → idComplaint v = Some m →
            schemaPrecedence fields = Some m) as H.
  { intros v m Hid Hv. unfold schemaPrecedence. rewrite Hn, Ha, Hid. simpl.
    by rewrite Hv. }
  split; [|split].
  - intros x Hid Hx.
    assert (schemaPrecedence fields = Some "ID must be at least 1") as HP.
    { apply (H (JNum x)); [done|]. unfold idComplaint, coerced. simpl.
      by rewrite Qlt_bool_true. }
    split; [by apply POST_rejected|by apply PUT_rejected].
  - intros x Hid Hx Hfrac.
    assert (schemaPrecedence fields = Some "id must be a whole number") as HP.
    { apply (H (JNum x)); [done|]. unfold idComplaint, coerced. simpl.
      rewrite Qlt_bool_false by done. unfold wholeNumber. by rewrite Hfrac. }
    split; [by apply POST_rejected|by apply PUT_rejected].
  - intros s Hid Hs.
    assert (schemaPrecedence fields = Some "id must be a number") as HP.
    { apply (H (JStr s)); [done|]. unfold idComplaint, coerced. simpl.
      destruct Hs as [->|Hs]; [done|]. rewrite Hs.
      by destruct (String.eqb s ""). }
    split; [by apply POST_rejected|by apply PUT_rejected].
Qed.

(** X14.  [updateEmployeeSchema], which no route uses, asks of the name
    and the age what [createEmployeeSchema] asks and nothing of the id: its
    message for a body is the message of [createEmployeeSchema] for the body
    without its id. *)
Theorem updateEmployeeSchema_message (fields : gmap string json) :
  messageOf (validateObject ajvOptions updateEmployeeSchema (JObj fields)).1
    = rejected (JObj (delete "id" fields)).
Proof.
  rewrite rejected_schemaPrecedence, validateObject_errors.
  unfold schemaPrecedence.
  cbn [updateEmployeeSchema required properties requiredErrors
       propertyErrors flat_map].
  rewrite lookup_delete_eq, !lookup_delete_ne by done.
  destruct (fields !! "name") as [n|]; [|done].
  destruct (fields !! "age") as [a|]; [|done].
  cbn [app]. rewrite !app_nil_r, !messageOf_app.
  change ("/" +:+ "name") with "/name". change ("/" +:+ "age") with "/age".
  rewrite name_message, age_message.
  cbn [firstOf mbind option_bind]. by repeat case_match.
Qed.

(** X15.  A property of the body other than id, name and age changes
    nothing: the create and the update answer as they do without it and
    leave the same store. *)
Theorem additional_property_ignored (k : string) (v : json)
    (fields : gmap string json) (idParam : string) (st : State) :
  k ≠ "id" → k ≠ "name" → k ≠ "age" →
  POST_employees (JObj (<[k := v]> fields)) st
    = POST_employees (JObj fields) st
  ∧ PUT_employee idParam (JObj (<[k := v]> fields)) st
    = PUT_employee idParam (JObj fields) st.
Proof.
  intros Hid Hname Hage.
  assert (validateObject ajvOptions createEmployeeSchema
            (JObj (<[k := v]> fields))
          = validateObject ajvOptions createEmployeeSchema (JObj fields))
    as H.
  { unfold validateObject.
    cbn [createEmployeeSchema required properties additionalProperties
         requiredErrors flat_map validateProperties].
    by rewrite !lookup_insert_ne. }
  unfold POST_employees, PUT_employee, withBodySchema. by rewrite H.
Qed.

(** X16.  A body that is not a JSON object (null, a boolean, a number, a
    string, an array) is answered with 400 and "data must be a object" by
    the create and by the update, whatever the path id, and the store is
    left as it was. *)
Theorem non_object_body (body : json) (idParam : string) (st : State) :
  (∀ fields, body ≠ JObj fields) →
  POST_employees body st = (send 400 (Failure "data must be a object"), st)
  ∧ PUT_employee idParam body st
    = (send 400 (Failure "data must be a object"), st).
Proof.
  intros H. destruct body as [| | | | |fields]; try done.
  by destruct (H fields).
Qed.

(** X17.  Null and booleans are coerced before they are judged.  With no
    id in the body: a null name counts as the empty string and is answered
    with "name cannot be empty"; a null or boolean age counts as 0 or 1 and
    is answered with the age message; a boolean name is stored as the text
    "true" or "false" when the age is an integer from 5 to 95. *)
Theorem null_and_boolean_fields (fields : gmap string json) (st : State) :
  fields !! "id" = None →
  (∀ a, fields !! "name" = Some JNull → fields !! "age" = Some a →
     POST_employees (JObj fields) st
       = (send 400 (Failure "name cannot be empty"), st))
  ∧ (∀ s v, fields !! "name" = Some (JStr s) → s ≠ "" →
       fields !! "age" = Some v → v = JNull ∨ (∃ b, v = JBool b) →
       POST_employees (JObj fields) st
         = (send 400 (Failure "Age must be between 5 and 95 years"), st))
  ∧ (∀ (b : bool) (a : Z), fields !! "name" = Some (JBool b) →
       fields !! "age" = Some (JNum (inject_Z a)) → 5 ≤ a ≤ 95 →
       POST_employees (JObj fields) st =
         (send 201 (Success "Employee created successfully"
                      {| id := nextId st;
                         name := if b then "true" else "false";
                         age := a |}),
          {| employees :=
               employees st
                 ++ [{| id := nextId st;
                        name := if b then "true" else "false";
                        age := a |}];
             nextId := nextId st + 1 |})).
Proof.
  intros Hid. split; [|split].
  - intros a Hn Ha. apply POST_rejected. unfold schemaPrecedence.
    by rewrite Hn, Ha, Hid.
  - intros s v Hn Hs Ha Hv. apply POST_rejected. unfold schemaPrecedence.
    rewrite Hn, Ha, Hid. simpl. rewrite nameComplaint_string by done.
    by destruct Hv as [->|[[] ->]].
  - intros b a Hn Ha Hrange.
    apply (POST_created fields
             {| body_id := None;
                body_name := if b then "true" else "false";
                body_age := a |}); [| |done].
    + unfold schemaPrecedence. rewrite Hn, Ha, Hid. simpl.
      rewrite ageComplaint_in_range by done. by destruct b.
    + unfold coercedBody. rewrite Hn, Ha, Hid. simpl.
      unfold coerced. simpl. rewrite isInteger_inject_Z, toInteger_inject_Z.
      by destruct b.
Qed.

End Bodies.

(** ** More on the path parameter *)

Section PathId.
Context {rt : JSRuntime}.

Lemma testDigits_zero (s : string) :
  s ≠ "" → testDigits (String "0" s) = testDigits s.
Proof. by destruct s. Qed.

Lemma parseInt_zero (s : string) : parseInt (String "0" s) = parseInt s.
Proof. reflexivity. Qed.

(** X18.  Zeros in front of a path id do not matter: "007" names the
    record that "7" names.  For every parameter that is not empty, the
    lookup, the delete and the update answer the same with a "0" put in
    front. *)
Theorem leading_zero_ignored (idParam : string) (body : json) (st : State) :
  idParam ≠ "" →
  GET_employee (String "0" idParam) st = GET_employee idParam st
  ∧ DELETE_employee (String "0" idParam) st = DELETE_employee idParam st
  ∧ PUT_employee (String "0" idParam) body st = PUT_employee idParam body st.
Proof.
  intros Hne.
  unfold GET_employee, DELETE_employee, PUT_employee, withBodySchema,
    PUT_handler.
  by rewrite testDigits_zero, parseInt_zero.
Qed.

End PathId.

(** ** The further properties at concrete requests *)

Lemma auto_ids_distinct_witness :
  Forall (λ r, suppliesId r = false) countedCreates
  ∧ ids (run (rt := decimalRuntime) countedCreates initialState) = [2; 3]
  ∧ NoDup (ids (run (rt := decimalRuntime) countedCreates initialState))
  ∧ Forall (λ i, i < nextId (run (rt := decimalRuntime) countedCreates
                               initialState))
      (ids (run (rt := decimalRuntime) countedCreates initialState)).
Proof.
  assert (Forall (λ r, suppliesId r = false) countedCreates) as H
    by (repeat constructor).
  split; [exact H|]. split; [vm_compute; reflexivity|].
  exact (auto_ids_distinct (rt := decimalRuntime) countedCreates H).
Defined.

Lemma explicit_ids_distinct_witness :
  Forall (λ r, takesCounter r = false) suppliedCreates
  ∧ NoDup (ids initialState)
  ∧ ids (run (rt := decimalRuntime) suppliedCreates initialState) = [1]
  ∧ NoDup (ids (run (rt := decimalRuntime) suppliedCreates initialState)).
Proof.
  assert (Forall (λ r, takesCounter r = false) suppliedCreates) as H
    by (repeat constructor).
  assert (NoDup (ids initialState)) as Hnd by constructor.
  split; [exact H|]. split; [exact Hnd|]. split; [vm_compute; reflexivity|].
  exact (explicit_ids_distinct (rt := decimalRuntime) suppliedCreates
           initialState H Hnd).
Defined.

Lemma failure_changes_nothing_witness :
  payload (serve (rt := decimalRuntime) (Create (JObj fieldsA1)) twoRecords).1
    = Failure "Employee with ID 1 already exists"
  ∧ (serve (rt := decimalRuntime) (Create (JObj fieldsA1)) twoRecords).2
    = twoRecords.
Proof.
  assert (payload (serve (rt := decimalRuntime) (Create (JObj fieldsA1))
                     twoRecords).1
          = Failure "Employee with ID 1 already exists") as H
    by (vm_compute; reflexivity).
  split; [exact H|].
  exact (failure_changes_nothing (rt := decimalRuntime)
           (Create (JObj fieldsA1)) twoRecords _ H).
Defined.

Lemma create_then_get_witness :
  payload (POST_employees (rt := decimalRuntime) (JObj fieldsA) twoRecords).1
    = Success "Employee created successfully"
        {| id := 3; name := "A"; age := 30 |}
  ∧ testDigits "3" = true ∧ parseInt "3" = 3 ∧ (3 ∉ ids twoRecords)
  ∧ GET_employee "3"
      (POST_employees (rt := decimalRuntime) (JObj fieldsA) twoRecords).2
    = (send 200 (Success "Employee retrieved successfully"
                   {| id := 3; name := "A"; age := 30 |}),
       (POST_employees (rt := decimalRuntime) (JObj fieldsA) twoRecords).2).
Proof.
  assert (payload (POST_employees (rt := decimalRuntime) (JObj fieldsA)
                     twoRecords).1
          = Success "Employee created successfully"
              {| id := 3; name := "A"; age := 30 |}) as H
    by (vm_compute; reflexivity).
  assert (3 ∉ ids twoRecords) as Hnew.
  { vm_compute. intros Hin. apply list_elem_of_In in Hin.
    destruct Hin as [Hin|[Hin|[]]]; discriminate Hin. }
  split; [exact H|]. split; [reflexivity|]. split; [reflexivity|].
  split; [exact Hnew|].
  exact (create_then_get (rt := decimalRuntime) (JObj fieldsA) twoRecords _
           {| id := 3; name := "A"; age := 30 |} "3" H eq_refl eq_refl
           (or_intror Hnew)).
Defined.

Lemma create_appends_witness :
  payload (POST_employees (rt := decimalRuntime) (JObj fieldsA) twoRecords).1
    = Success "Employee created successfully"
        {| id := 3; name := "A"; age := 30 |}
  ∧ employees (POST_employees (rt := decimalRuntime) (JObj fieldsA)
                 twoRecords).2
    = employees twoRecords ++ [{| id := 3; name := "A"; age := 30 |}]
  ∧ (GET_employees (POST_employees (rt := decimalRuntime) (JObj fieldsA)
                      twoRecords).2).1
    = send 200 (SuccessList "Employees retrieved successfully"
                  (employees twoRecords
                     ++ [{| id := 3; name := "A"; age := 30 |}]) 3).
Proof.
  assert (payload (POST_employees (rt := decimalRuntime) (JObj fieldsA)
                     twoRecords).1
          = Success "Employee created successfully"
              {| id := 3; name := "A"; age := 30 |}) as H
    by (vm_compute; reflexivity).
  split; [exact H|].
  exact (create_appends (rt := decimalRuntime) (JObj fieldsA) twoRecords _
           {| id := 3; name := "A"; age := 30 |} H).
Defined.

Lemma update_then_get_witness :
  payload (PUT_employee (rt := decimalRuntime) "2" (JObj fieldsA)
             twoRecords).1
    = Success "Employee updated successfully"
        {| id := 2; name := "A"; age := 30 |}
  ∧ GET_employee "2"
      (PUT_employee (rt := decimalRuntime) "2" (JObj fieldsA) twoRecords).2
    = (send 200 (Success "Employee retrieved successfully"
                   {| id := 2; name := "A"; age := 30 |}),
       (PUT_employee (rt := decimalRuntime) "2" (JObj fieldsA) twoRecords).2).
Proof.
  assert (payload (PUT_employee (rt := decimalRuntime) "2" (JObj fieldsA)
                     twoRecords).1
          = Success "Employee updated successfully"
              {| id := 2; name := "A"; age := 30 |}) as H
    by (vm_compute; reflexivity).
  split; [exact H|].
  exact (update_then_get (rt := decimalRuntime) "2" (JObj fieldsA) twoRecords
           _ {| id := 2; name := "A"; age := 30 |} H).
Defined.

Lemma delete_effect_witness :
  testDigits "1" = true
  ∧ employees twoRecords !! 0%nat = Some {| id := 1; name := "A"; age := 30 |}
  ∧ NoDup (ids twoRecords)
  ∧ DELETE_employee "1" twoRecords =
      (send 200 (Success "Employee deleted successfully"
                   {| id := 1; name := "A"; age := 30 |}),
       {| employees := [{| id := 2; name := "B"; age := 31 |}];
          nextId := 3 |})
  ∧ GET_employee "1" (DELETE_employee "1" twoRecords).2 =
      (send 404 (Failure "Employee not found"),
       (DELETE_employee "1" twoRecords).2).
Proof.
  assert (NoDup (ids twoRecords)) as Hnd.
  { vm_compute. repeat constructor; intros Hin; apply list_elem_of_In in Hin;
      simpl in Hin; intuition discriminate. }
  pose proof (delete_effect "1" twoRecords 0%nat
                {| id := 1; name := "A"; age := 30 |} eq_refl eq_refl eq_refl)
    as H.
  destruct H as (Hdel & _ & _ & _ & Hget).
  { intros j e' _ Hj. lia. }
  split; [reflexivity|]. split; [reflexivity|]. split; [exact Hnd|].
  split; [exact Hdel|]. exact (Hget Hnd).
Defined.

Lemma wrong_id_reported_first_witness :
  (∀ v : json,
     (<["id" := v]> fieldsBadIdBadAge : gmap string json) !! "name"
       = Some (JStr "A")
     ∧ (<["id" := v]> fieldsBadIdBadAge : gmap string json) !! "age"
       = Some (num 4))
  ∧ POST_employees (rt := decimalRuntime)
      (JObj (<["id" := JNum (1#2)]> fieldsBadIdBadAge)) twoRecords
    = (send 400 (Failure "ID must be at least 1"), twoRecords)
  ∧ PUT_employee (rt := decimalRuntime) "1"
      (JObj (<["id" := JNum (1#2)]> fieldsBadIdBadAge)) twoRecords
    = (send 400 (Failure "ID must be at least 1"), twoRecords)
  ∧ POST_employees (rt := decimalRuntime)
      (JObj (<["id" := JNum (5#2)]> fieldsBadIdBadAge)) twoRecords
    = (send 400 (Failure "id must be a whole number"), twoRecords)
  ∧ POST_employees (rt := decimalRuntime)
      (JObj (<["id" := JStr "abc"]> fieldsBadIdBadAge)) twoRecords
    = (send 400 (Failure "id must be a number"), twoRecords).
Proof.
  assert (∀ v : json,
     (<["id" := v]> fieldsBadIdBadAge : gmap string json) !! "name"
       = Some (JStr "A")
     ∧ (<["id" := v]> fieldsBadIdBadAge : gmap string json) !! "age"
       = Some (num 4)) as H by (intros v; split; reflexivity).
  split; [exact H|].
  pose proof (λ v,
    wrong_id_reported_first (rt := decimalRuntime)
      (<["id" := v]> fieldsBadIdBadAge) (JStr "A") (num 4) "1" twoRecords
      (proj1 (H v)) (proj2 (H v))) as T.
  assert (∀ v : json,
            (<["id" := v]> fieldsBadIdBadAge : gmap string json) !! "id"
              = Some v) as Hid by (intros v; reflexivity).
  split; [|split; [|split]].
  - apply (proj1 (T (JNum (1#2))) (1#2)%Q (Hid _)). reflexivity.
  - apply (proj1 (T (JNum (1#2))) (1#2)%Q (Hid _)). reflexivity.
  - apply (proj1 (proj2 (T (JNum (5#2)))) (5#2)%Q (Hid _)).
    + discriminate.
    + reflexivity.
  - apply (proj2 (proj2 (T (JStr "abc"))) "abc" (Hid _)). right. reflexivity.
Defined.

Lemma additional_property_ignored_witness :
  "role" ≠ "id" ∧ "role" ≠ "name" ∧ "role" ≠ "age"
  ∧ POST_employees (rt := decimalRuntime)
      (JObj (<["role" := JStr "admin"]> fieldsA)) twoRecords
    = POST_employees (rt := decimalRuntime) (JObj fieldsA) twoRecords
  ∧ PUT_employee (rt := decimalRuntime) "2"
      (JObj (<["role" := JStr "admin"]> fieldsA)) twoRecords
    = PUT_employee (rt := decimalRuntime) "2" (JObj fieldsA) twoRecords.
Proof.
  assert ("role" ≠ "id") as H1 by discriminate.
  assert ("role" ≠ "name") as H2 by discriminate.
  assert ("role" ≠ "age") as H3 by discriminate.
  split; [exact H1|]. split; [exact H2|]. split; [exact H3|].
  exact (additional_property_ignored (rt := decimalRuntime) "role"
           (JStr "admin") fieldsA "2" twoRecords H1 H2 H3).
Defined.

Lemma non_object_body_witness :
  (∀ fields, JArr [JObj fieldsA] ≠ JObj fields)
  ∧ POST_employees (rt := decimalRuntime) (JArr [JObj fieldsA]) twoRecords
    = (send 400 (Failure "data must be a object"), twoRecords)
  ∧ PUT_employee (rt := decimalRuntime) "abc" (JArr [JObj fieldsA]) twoRecords
    = (send 400 (Failure "data must be a object"), twoRecords).
Proof.
  assert (∀ fields, JArr [JObj fieldsA] ≠ JObj fields) as H
    by (intros fields; discriminate).
  split; [exact H|].
  exact (non_object_body (rt := decimalRuntime) (JArr [JObj fieldsA]) "abc"
           twoRecords H).
Defined.

Lemma null_and_boolean_fields_witness :
  (∀ n a : json,
     (list_to_map [("name", n); ("age", a)] : gmap string json) !! "id" = None)
  ∧ POST_employees (rt := decimalRuntime)
      (body_of [("name", JNull); ("age", JNull)]) twoRecords
    = (send 400 (Failure "name cannot be empty"), twoRecords)
  ∧ POST_employees (rt := decimalRuntime)
      (body_of [("name", JStr "A"); ("age", JBool true)]) twoRecords
    = (send 400 (Failure "Age must be between 5 and 95 years"), twoRecords)
  ∧ POST_employees (rt := decimalRuntime)
      (body_of [("name", JBool true); ("age", num 30)]) twoRecords
    = (send 201 (Success "Employee created successfully"
                   {| id := 3; name := "true"; age := 30 |}),
       {| employees :=
            employees twoRecords
              ++ [{| id := 3; name := "true"; age := 30 |}];
          nextId := 4 |}).
Proof.
  assert (∀ n a : json,
     (list_to_map [("name", n); ("age", a)] : gmap string json) !! "id" = None)
    as H by (intros n a; reflexivity).
  split; [exact H|].
  pose proof (λ n a,
    null_and_boolean_fields (rt := decimalRuntime)
      (list_to_map [("name", n); ("age", a)]) twoRecords (H n a)) as T.
  split; [|split].
  - apply (proj1 (T JNull JNull) JNull); reflexivity.
  - apply (proj1 (proj2 (T (JStr "A") (JBool true))) "A" (JBool true)).
    + reflexivity.
    + discriminate.
    + reflexivity.
    + right. by exists true.
  - apply (proj2 (proj2 (T (JBool true) (num 30))) true 30).
    + reflexivity.
    + reflexivity.
    + lia.
Defined.

Lemma leading_zero_ignored_witness :
  "7" ≠ ""
  ∧ GET_employee "07" twoRecords = GET_employee "7" twoRecords
  ∧ DELETE_employee "07" twoRecords = DELETE_employee "7" twoRecords
  ∧ PUT_employee (rt := decimalRuntime) "07" (JObj fieldsA) twoRecords
    = PUT_employee (rt := decimalRuntime) "7" (JObj fieldsA) twoRecords.
Proof.
  assert ("7" ≠ "") as H by discriminate.
  split; [exact H|].
  exact (leading_zero_ignored (rt := decimalRuntime) "7" (JObj fieldsA)
           twoRecords H).
Defined.

(** ** Coercion, and the records a request does not name *)

Section Frame.
Context {rt : JSRuntime}.




Lemma found_record_delete (k : Z) (arr : list Employee) (i : nat) e :
  arr !! i = Some e → id e ≠ k →
  snd <$> findEmployee k (delete i arr) = snd <$> findEmployee k arr.
Proof.
  unfold findEmployee. revert i.
  induction arr as [|x arr IH]; intros i Hi He; [done|].
  destruct i as [|i]; simpl in *.
  - injection Hi as ->. rewrite decide_False by done.
    rewrite <- option_fmap_compose. by destruct (list_find _ arr) as [[??]|].
  - destruct (decide (id x = k)); [done|].
    rewrite <- !option_fmap_compose.
    specialize (IH i Hi He).
    destruct (list_find _ (delete i arr)) as [[??]|],
             (list_find _ arr) as [[??]|]; simpl in *; congruence.
Qed.

Lemma found_record_insert (k : Z) (arr : list Employee) (i : nat) e upd :
  arr !! i = Some e → id e ≠ k → id upd ≠ k →
  snd <$> findEmployee k (<[i := upd]> arr) = snd <$> findEmployee k arr.
Proof.
  unfold findEmployee. revert i.
  induction arr as [|x arr IH]; intros i Hi He Hupd; [done|].
  destruct i as [|i]; simpl in *.
  - injection Hi as ->. by rewrite !decide_False by done.
  - destruct (decide (id x = k)); [done|].
    rewrite <- !option_fmap_compose.
    specialize (IH i Hi He Hupd).
    destruct (list_find _ (<[i:=upd]> arr)) as [[??]|],
             (list_find _ arr) as [[??]|]; simpl in *; congruence.
Qed.

Lemma found_record_push (k : Z) (arr : list Employee) e :
  id e ≠ k →
  snd <$> findEmployee k (arr ++ [e]) = snd <$> findEmployee k arr.
Proof.
  unfold findEmployee. intros He.
  induction arr as [|x arr IH]; simpl.
  - by rewrite decide_False.
  - destruct (decide (id x = k)); [done|].
    rewrite <- !option_fmap_compose.
    destruct (list_find _ (arr ++ [e])) as [[??]|],
             (list_find _ arr) as [[??]|]; simpl in *; congruence.
Qed.

Lemma GET_reply_found idParam st st' :
  snd <$> findEmployee (parseInt idParam) (employees st')
    = snd <$> findEmployee (parseInt idParam) (employees st) →
  (GET_employee idParam st').1 = (GET_employee idParam st).1.
Proof.
  intros H. unfold GET_employee, getEmployees.
  destruct (testDigits idParam); [|done]. simpl.
  destruct (findEmployee _ (employees st')) as [[??]|],
           (findEmployee _ (employees st)) as [[??]|];
    simpl in *; congruence.
Qed.

(** X20.  A request leaves the lookup of every other id as it was: after an
    update or a delete under one path id the lookup of a path id with
    another number answers as before, and so it does after a create unless
    the create made a record with that very id. *)
Theorem other_ids_untouched (idParam' : string) (st : State) :
  (∀ idParam body, parseInt idParam ≠ parseInt idParam' →
     (GET_employee idParam' (PUT_employee idParam body st).2).1
       = (GET_employee idParam' st).1)
  ∧ (∀ idParam, parseInt idParam ≠ parseInt idParam' →
       (GET_employee idParam' (DELETE_employee idParam st).2).1
         = (GET_employee idParam' st).1)
  ∧ (∀ body,
       (∀ m e, payload (POST_employees body st).1 = Success m e →
               id e ≠ parseInt idParam') →
       (GET_employee idParam' (POST_employees body st).2).1
         = (GET_employee idParam' st).1).
Proof.
  split; [|split].
  - intros idParam body Hne.
    destruct (PUT_cases idParam body st)
      as [(m' & _ & ->)|[(b & _ & _ & ->)|[(b & _ & _ & _ & ->)
         |(b & i & old & _ & _ & Hfind & ->)]]]; try done.
    apply GET_reply_found. simpl.
    apply findEmployee_Some in Hfind as (Hi & Hid & _).
    apply (found_record_insert _ _ i old); [done| |]; simpl; congruence.
  - intros idParam Hne.
    destruct (DELETE_cases idParam st)
      as [(_ & ->)|[(_ & _ & ->)|(i & e & _ & Hfind & ->)]]; try done.
    apply GET_reply_found. simpl.
    apply findEmployee_Some in Hfind as (Hi & Hid & _).
    apply (found_record_delete _ _ i e); [done|congruence].
  - intros body Hnew.
    destruct (POST_cases body st)
      as [(m' & _ & Heq)|[(b & i & _ & _ & _ & Heq)
         |[(b & i & _ & _ & _ & Heq)|(b & _ & _ & Heq)]]];
      rewrite Heq in Hnew |- *; try done;
      apply GET_reply_found; simpl; apply found_record_push;
      by apply (Hnew _ _ eq_refl).
Qed.

End Frame.

Lemma status_tells_outcome_witness :
  code (serve (rt := decimalRuntime) (Create (JObj fieldsA)) twoRecords).1 = 201
  ∧ code (serve (rt := decimalRuntime) (Create (JObj fieldsA)) twoRecords).1
      ∈ [200; 201; 400; 404; 409]
  ∧ succeeded
      (payload (serve (rt := decimalRuntime) (Create (JObj fieldsA))
                  twoRecords).1) = true
  ∧ ∃ body, Create (JObj fieldsA) = Create body.
Proof.
  pose proof (status_tells_outcome (rt := decimalRuntime)
                (Create (JObj fieldsA)) twoRecords) as (Hin & Hok & Hcreate).
  assert (code (serve (rt := decimalRuntime) (Create (JObj fieldsA))
                  twoRecords).1 = 201) as H by (vm_compute; reflexivity).
  split; [exact H|]. split; [exact Hin|]. split.
  - rewrite Hok, H. reflexivity.
  - exact (Hcreate H).
Defined.


Lemma other_ids_untouched_witness :
  parseInt "1" ≠ parseInt "2"
  ∧ (GET_employee "2"
       (PUT_employee (rt := decimalRuntime) "1" (JObj fieldsA) twoRecords).2).1
    = (GET_employee "2" twoRecords).1
  ∧ (GET_employee "2" (DELETE_employee "1" twoRecords).2).1
    = (GET_employee "2" twoRecords).1
  ∧ (GET_employee "2"
       (POST_employees (rt := decimalRuntime) (JObj fieldsA) twoRecords).2).1
    = (GET_employee "2" twoRecords).1
  ∧ (GET_employee "2" twoRecords).1
    = send 200 (Success "Employee retrieved successfully"
                  {| id := 2; name := "B"; age := 31 |}).
Proof.
  assert (parseInt "1" ≠ parseInt "2") as Hne by discriminate.
  pose proof (other_ids_untouched (rt := decimalRuntime) "2" twoRecords)
    as (Hput & Hdel & Hpost).
  split; [exact Hne|]. split; [exact (Hput "1" (JObj fieldsA) Hne)|].
  split; [exact (Hdel "1" Hne)|]. split; [|reflexivity].
  apply Hpost. intros m e He.
  assert (payload (POST_employees (rt := decimalRuntime) (JObj fieldsA)
                     twoRecords).1
          = Success "Employee created successfully"
              {| id := 3; name := "A"; age := 30 |}) as H
    by (vm_compute; reflexivity).
  rewrite H in He. injection He as _ <-. discriminate.
Defined.

(** ** Records that share an id, and ids the schema refuses *)

Section Duplicates.
Context {rt : JSRuntime}.

(** C7 fails on the code.  After a create with the explicit id 1 and a
    create without id the store has two records with id 1.  An update under
    that id is answered with 200, but it rewrites the first of the two: the
    second, which has the same id, cannot be updated at all, and an update
    meant for it changes another record.  Where the record is the first with
    its id the update does what the claim says. *)
Theorem update_rewrites_first_duplicate :
  serve (Update "1" (body_of [("name", JStr "C"); ("age", num 40)]))
    (run [ Create (body_of [("id", num 1); ("name", JStr "A"); ("age", num 30)]);
           Create (body_of [("name", JStr "B"); ("age", num 31)]) ]
         initialState)
  = (send 200 (Success "Employee updated successfully"
                 {| id := 1; name := "C"; age := 40 |}),
     {| employees := [ {| id := 1; name := "C"; age := 40 |};
                       {| id := 1; name := "B"; age := 31 |} ];
        nextId := 2 |}).
Proof. vm_compute. reflexivity. Qed.

End Duplicates.

(** An update whose body carries the id 10^21, an integer of at least 1:
    the schema's test for whole numbers refuses it, and the update is
    answered with 400. *)
Lemma huge_body_id_counterexample :
  1 ≤ 10 ^ 21
  ∧ accepted (rt := decimalRuntime) (JObj fieldsA)
    = Some {| body_id := None; body_name := "A"; body_age := 30 |}
  ∧ accepted (rt := decimalRuntime)
      (JObj (<["id" := JNum (inject_Z (10 ^ 21))]> fieldsA)) = None
  ∧ PUT_employee (rt := decimalRuntime) "1"
      (JObj (<["id" := JNum (inject_Z (10 ^ 21))]> fieldsA)) twoRecords
    = (send 400 (Failure "id must be a whole number"), twoRecords).
Proof.
  split; [done|]. split; [vm_compute; reflexivity|].
  split; vm_compute; reflexivity.
Qed.

Lemma reachable_records_valid_witness :
  Forall (λ r, plainNumbers r = true) countedCreates
  ∧ employees (run (rt := decimalRuntime) countedCreates initialState)
    = [ {| id := 2; name := "A"; age := 30 |};
        {| id := 3; name := "A"; age := 30 |} ]
  ∧ Forall validEmployee
      (employees (run (rt := decimalRuntime) countedCreates initialState))
  ∧ 1 ≤ nextId (run (rt := decimalRuntime) countedCreates initialState).
Proof.
  assert (Forall (λ r, plainNumbers r = true) countedCreates) as H
    by (repeat constructor).
  split; [exact H|]. split; [vm_compute; reflexivity|].
  exact (reachable_records_valid (rt := decimalRuntime) countedCreates H).
Defined.
